(** * Dungeon GPT Lite: session state, transcripts, persistence and generation

    A shallow embedding of [streamlit_app.py].  The script keeps its state in
    [st.session_state], talks to the Gemini SDK and to Firestore, and reports
    to the user through [st.success], [st.error] and the like.  Here

    - a Python object is a [pyval];
    - a Python function that reads and writes the session, shows notices and
      calls the services is a computation in the monad [M]: it takes the
      [world] and gives back a [result] with the world after it;
    - [try: ... except Exception] is [try_except]; [st.rerun()] ends the run
      of the script and is not an [Exception], so no handler catches it;
    - what lives in libraries ([json.dumps], [json.loads], [str()] of an
      object that is not a string, the answer of the Gemini service) is a
      [Variable] of the section that uses it.

    [print] calls only write to the server log and are left out. *)

From Stdlib Require Import ZArith QArith_base Qreduction String Ascii List.
From stdpp Require Import base gmap strings list pretty.

Local Open Scope Z_scope.

(** ** Strings *)

Module Str.

(** The line feed, written [\n] in the source. *)
Definition LF : string := String "010"%char EmptyString.

(** [c.upper()] on an ASCII letter; other characters are left as they are.
    The senders the program writes are ["user"] and ["ai"]. *)
Definition upper_ascii (c : ascii) : ascii :=
  let n := nat_of_ascii c in
  if ((97 <=? n)%nat && (n <=? 122)%nat)%bool then ascii_of_nat (n - 32) else c.

(** [s.upper()]. *)
Fixpoint upper (s : string) : string :=
  match s with
  | EmptyString => EmptyString
  | String c s' => String (upper_ascii c) (upper s')
  end.

(** [needle in hay] on two Python strings: [needle] occurs in [hay]. *)
Fixpoint contains (needle hay : string) : bool :=
  if String.prefix needle hay then true
  else match hay with
       | EmptyString => false
       | String _ hay' => contains needle hay'
       end.

(** [bool(s)]: a string is true when it is not empty. *)
Definition nonempty (s : string) : bool :=
  match s with EmptyString => false | String _ _ => true end.

(** Concatenation of the strings of a list, in order. *)
Fixpoint concat (l : list string) : string :=
  match l with
  | [] => EmptyString
  | s :: l' => s +:+ concat l'
  end.

End Str.

(** ** Python objects *)

(** The objects the script handles: what [json.loads] builds ([None], [bool],
    [int], [float], [str], [list], [dict] with string keys, in insertion
    order), the sentinel [firestore.SERVER_TIMESTAMP], and the time stamps
    Firestore hands back.  A float is carried as the rational it denotes; the
    script stores, compares and forwards floats and never computes on them. *)
#[warnings="-register-all"]
Inductive pyval : Type :=
| PNone
| PBool (b : bool)
| PInt (n : Z)
| PFloat (q : Q)
| PStr (s : string)
| PList (items : list pyval)
| PDict (fields : list (string * pyval))
| PServerTimestamp
| PTimestamp (t : Z).

(** Lookup of a key in a dict, as an association list. *)
Fixpoint assoc (key : string) (fields : list (string * pyval)) : option pyval :=
  match fields with
  | [] => None
  | (k, v) :: rest => if String.eqb k key then Some v else assoc key rest
  end.

(** [bool(v)], the truth value [if v:] tests. *)
Definition truthy (v : pyval) : bool :=
  match v with
  | PNone => false
  | PBool b => b
  | PInt n => negb (n =? 0)
  | PFloat q => negb (Qnum q =? 0)
  | PStr s => Str.nonempty s
  | PList items => match items with [] => false | _ => true end
  | PDict fields => match fields with [] => false | _ => true end
  | PServerTimestamp => true
  | PTimestamp _ => true
  end.

(** [v == s] for a string literal [s]: only a string equals a string. *)
Definition eq_str (v : pyval) (s : string) : bool :=
  match v with
  | PStr s' => String.eqb s' s
  | _ => false
  end.

(** [type(v).__name__]. *)
Definition type_name (v : pyval) : string :=
  match v with
  | PNone => "NoneType"
  | PBool _ => "bool"
  | PInt _ => "int"
  | PFloat _ => "float"
  | PStr _ => "str"
  | PList _ => "list"
  | PDict _ => "dict"
  | PServerTimestamp => "Sentinel"
  | PTimestamp _ => "DatetimeWithNanoseconds"
  end.

(** [l[start:]] on a list, with Python's rule for a negative [start]. *)
Definition slice_from {A} (start : Z) (l : list A) : list A :=
  let n := Z.of_nat (length l) in
  let s := if start <? 0 then Z.max 0 (start + n) else Z.min start n in
  drop (Z.to_nat s) l.

(** ** Exceptions and results *)

Inductive exn_class : Type :=
| AttributeError
| TypeError
| KeyError
| ValueError
| JSONDecodeError
| UnicodeDecodeError
| ServiceError.   (* an exception raised inside a client library *)

(** An exception [e]: its class and [str(e)]. *)
Record exn : Type := Exn { exn_class_of : exn_class; exn_str : string }.

(** How a piece of the script ends: with a value, with an exception, or with
    [st.rerun()], which stops the run so that the script starts again. *)
Inductive result (A : Type) : Type :=
| Return (a : A)
| Raise (e : exn)
| Rerun.
Arguments Return {A} a.
Arguments Raise {A} e.
Arguments Rerun {A}.

(** ** The world the script runs in *)

(** [st.session_state]. *)
Record session_state : Type := SessionState {
  story_history : pyval;
  current_mode : pyval;
  temperature : pyval;
  tone : pyval;
  user_id : string
}.

(** What the script shows to the user. *)
Inductive notice_level : Type := Success | Info | Warning | Error | Toast.
Record notice : Type := Notice { level : notice_level; message : string }.

(** A [GenerativeModel] instance: the model name and its safety settings. *)
Record generative_model : Type := GenerativeModel {
  model_name : string;
  safety_settings : list (string * string)
}.

(** One call of [generate_content]. *)
Record gemini_call : Type := GeminiCall {
  call_model : generative_model;
  call_prompt : string;
  call_generation_config : list (string * pyval)
}.

(** Firestore as the script sees it through its client: the documents by
    path, each a map from field names to values, the clock of the server,
    whether the service is failing (then every call raises), and the
    requests it has received. *)
Inductive db_request : Type :=
| ReqGet (path : list string)
| ReqSet (path : list string) (data : list (string * pyval)) (merge : bool).

Record firestore : Type := Firestore {
  documents : gmap (list string) (gmap string pyval);
  server_time : Z;
  failing : option exn;
  requests : list db_request
}.

Record world : Type := World {
  session : session_state;
  notices : list notice;           (* oldest first *)
  gemini_calls : list gemini_call; (* oldest first *)
  db : option firestore            (* the global [db]; [None] when Firebase was not initialised *)
}.

(** ** The monad of the script *)

Definition M (A : Type) : Type := world → result A * world.

#[global] Instance M_ret : MRet M := λ A a w, (Return a, w).

#[global] Instance M_bind : MBind M := λ A B f m w,
  match m w with
  | (Return a, w') => f a w'
  | (Raise e, w') => (Raise e, w')
  | (Rerun, w') => (Rerun, w')
  end.

(** [raise e] and [st.rerun()]. *)
Definition raise {A} (e : exn) : M A := λ w, (Raise e, w).
Definition st_rerun {A} : M A := λ w, (Rerun, w).

(** [try: body except Exception as e: handler e].  What the body did to the
    world before it raised stays done. *)
Definition try_except {A} (body : M A) (handler : exn → M A) : M A := λ w,
  match body w with
  | (Raise e, w') => handler e w'
  | r => r
  end.

(** A pure step that may raise. *)
Definition lift {A} (r : result A) : M A := λ w, (r, w).

(** Reading and writing [st.session_state]. *)
Definition get_session : M session_state := λ w, (Return (session w), w).

(** The world with another session, with more notices, with one more call. *)
Definition with_session (w : world) (s : session_state) : world :=
  World s (notices w) (gemini_calls w) (db w).

Definition with_notices (w : world) (shown : list notice) : world :=
  World (session w) (notices w ++ shown) (gemini_calls w) (db w).

Definition with_call (w : world) (c : gemini_call) : world :=
  World (session w) (notices w) (gemini_calls w ++ [c]) (db w).

Definition put_session (s : session_state) : M unit := λ w,
  (Return tt, with_session w s).

Definition set_story_history (v : pyval) : M unit :=
  s ← get_session;
  put_session (SessionState v (current_mode s) (temperature s) (tone s) (user_id s)).

Definition set_current_mode (v : pyval) : M unit :=
  s ← get_session;
  put_session (SessionState (story_history s) v (temperature s) (tone s) (user_id s)).

Definition set_temperature (v : pyval) : M unit :=
  s ← get_session;
  put_session (SessionState (story_history s) (current_mode s) v (tone s) (user_id s)).

Definition set_tone (v : pyval) : M unit :=
  s ← get_session;
  put_session (SessionState (story_history s) (current_mode s) (temperature s) v (user_id s)).

(** [st.success], [st.info], [st.warning], [st.error], [st.toast]. *)
Definition show (l : notice_level) (msg : string) : M unit := λ w,
  (Return tt, with_notices w [Notice l msg]).

(** ** Operations on Python objects

    Each raises what CPython raises; the texts of the built-in exceptions are
    those of CPython 3.11. *)

Definition quoted (s : string) : string := "'" +:+ s +:+ "'".

Definition no_attribute (v : pyval) (attr : string) : exn :=
  Exn AttributeError (quoted (type_name v) +:+ " object has no attribute " +:+ quoted attr).

(** [v.append(item)]: the list with [item] at its end. *)
Definition py_append (v item : pyval) : result pyval :=
  match v with
  | PList items => Return (PList (items ++ [item]))
  | _ => Raise (no_attribute v "append")
  end.

(** [key in v] for a string [key]. *)
Definition py_in (key : string) (v : pyval) : result bool :=
  match v with
  | PDict fields => Return (bool_decide (is_Some (assoc key fields)))
  | PList items => Return (existsb (λ x, eq_str x key) items)
  | PStr s => Return (Str.contains key s)
  | _ => Raise (Exn TypeError ("argument of type " +:+ quoted (type_name v) +:+ " is not iterable"))
  end.

(** [v[key]] for a string [key]. *)
Definition py_getitem (v : pyval) (key : string) : result pyval :=
  match v with
  | PDict fields =>
      match assoc key fields with
      | Some x => Return x
      | None => Raise (Exn KeyError (quoted key))
      end
  | PList _ => Raise (Exn TypeError "list indices must be integers or slices, not str")
  | PStr _ => Raise (Exn TypeError "string indices must be integers, not 'str'")
  | _ => Raise (Exn TypeError (quoted (type_name v) +:+ " object is not subscriptable"))
  end.

(** [v.get(key, default)]. *)
Definition py_get (v : pyval) (key : string) (default : pyval) : result pyval :=
  match v with
  | PDict fields =>
      match assoc key fields with
      | Some x => Return x
      | None => Return default
      end
  | _ => Raise (no_attribute v "get")
  end.

(** [v.upper()]. *)
Definition py_upper (v : pyval) : result string :=
  match v with
  | PStr s => Return (Str.upper s)
  | _ => Raise (no_attribute v "upper")
  end.

(** [v[-n:]] as the list of its items, for the loop over the last messages. *)
Definition py_last (n : Z) (v : pyval) : result (list pyval) :=
  match v with
  | PList items => Return (slice_from (- n) items)
  | PStr s => Return ((λ c, PStr (String c EmptyString)) <$> slice_from (- n) (list_ascii_of_string s))
  | PDict _ => Raise (Exn TypeError "unhashable type: 'slice'")
  | _ => Raise (Exn TypeError (quoted (type_name v) +:+ " object is not subscriptable"))
  end.

(** [l.index(v)] on a list of strings: the first position of [v], or
    [ValueError]. *)
Fixpoint index_of (v : pyval) (options : list string) : option nat :=
  match options with
  | [] => None
  | o :: rest => if eq_str v o then Some O else S <$> index_of v rest
  end.

Section Format.

(** [str(v)] for an object that is not a string; the library decides. *)
Variable str_object : pyval → string.

(** What an f-string puts for [{v}]. *)
Definition py_str (v : pyval) : string :=
  match v with
  | PStr s => s
  | _ => str_object v
  end.

(** [l.index(v)] for the tone selector. *)
Definition py_index (options : list string) (v : pyval) : result nat :=
  match index_of v options with
  | Some i => Return i
  | None => Raise (Exn ValueError (match v with
                                   | PStr s => quoted s
                                   | _ => str_object v
                                   end +:+ " is not in list"))
  end.

End Format.

(** ** Configuration *)

(** [get_config_value]: the Streamlit secrets first, then the environment. *)
Definition get_config_value (secrets env : gmap string string) (key : string)
    (default : option string) : option string :=
  match secrets !! key with
  | Some v => Some v
  | None =>
      match env !! key with
      | Some v => Some v
      | None => default
      end
  end.

Definition APP_ID : string := "dungeon-gpt-lite-app".

Definition _DEFAULT_SAFETY_SETTINGS : list (string * string) :=
  [("HARM_CATEGORY_HARASSMENT", "BLOCK_MEDIUM_AND_ABOVE");
   ("HARM_CATEGORY_HATE_SPEECH", "BLOCK_MEDIUM_AND_ABOVE");
   ("HARM_CATEGORY_SEXUALLY_EXPLICIT", "BLOCK_MEDIUM_AND_ABOVE");
   ("HARM_CATEGORY_DANGEROUS_CONTENT", "BLOCK_MEDIUM_AND_ABOVE")].

Definition _UNCENSORED_SAFETY_SETTINGS : list (string * string) :=
  [("HARM_CATEGORY_HARASSMENT", "BLOCK_NONE");
   ("HARM_CATEGORY_HATE_SPEECH", "BLOCK_NONE");
   ("HARM_CATEGORY_SEXUALLY_EXPLICIT", "BLOCK_NONE");
   ("HARM_CATEGORY_DANGEROUS_CONTENT", "BLOCK_NONE")].

(** The two module globals [gemini_model_censored] and
    [gemini_model_uncensored]. *)
Record gemini_models : Type := GeminiModels {
  gemini_model_censored : option generative_model;
  gemini_model_uncensored : option generative_model
}.

(** The configuration of the Gemini SDK when the script starts.  [sdk_error]
    is the exception the import of the SDK or the making of the models
    raises, if any. *)
Definition configure_gemini (GOOGLE_API_KEY : option string) (sdk_error : option exn)
    : M gemini_models :=
  if from_option Str.nonempty false GOOGLE_API_KEY then
    match sdk_error with
    | None =>
        show Success "Gemini API configured for both modes.";;
        mret (GeminiModels
                (Some (GenerativeModel "gemini-1.5-flash-latest" _DEFAULT_SAFETY_SETTINGS))
                (Some (GenerativeModel "gemini-1.5-flash-latest" _UNCENSORED_SAFETY_SETTINGS)))
    | Some e =>
        show Error ("Error configuring Gemini API: " +:+ exn_str e +:+ ". Check your API key.");;
        mret (GeminiModels None None)
    end
  else
    show Warning "GOOGLE_API_KEY not set. AI generation will be disabled.";;
    mret (GeminiModels None None).

(** ** The answer of the Gemini service *)

(** Reading an attribute of an object of the SDK: the attribute is not there
    ([hasattr] is false), reading it raises another exception, or it has a
    value. *)
Inductive attr (A : Type) : Type :=
| NoAttribute
| AttrRaises (e : exn)
| Attr (a : A).
Arguments NoAttribute {A}.
Arguments AttrRaises {A} e.
Arguments Attr {A} a.

(** [response.prompt_feedback]: its truth value and what
    [.block_reason.name] evaluates to. *)
Record prompt_feedback : Type := PromptFeedback {
  feedback_truthy : bool;
  block_reason_name : exn + string
}.

Record response : Type := Response {
  response_text : attr string;
  response_prompt_feedback : attr prompt_feedback
}.

(** What [generate_content] does: raises, or returns a response
    ([None] for a response that is false). *)
Inductive provider_outcome : Type :=
| CallFails (e : exn)
| CallReturns (r : option response).

Definition hasattr {A} (a : attr A) : result bool :=
  match a with
  | NoAttribute => Return false
  | AttrRaises e => Raise e
  | Attr _ => Return true
  end.

Definition getattr {A} (owner name : string) (a : attr A) : result A :=
  match a with
  | NoAttribute =>
      Raise (Exn AttributeError (quoted owner +:+ " object has no attribute " +:+ quoted name))
  | AttrRaises e => Raise e
  | Attr x => Return x
  end.

Definition of_sum {A} (x : exn + A) : result A :=
  match x with
  | inl e => Raise e
  | inr a => Return a
  end.

(** ** AI inference: [generate_gemini_response] *)

Section Gemini.

Variable str_object : pyval → string.
Variable models : gemini_models.
(** The service: what a call of [generate_content] on a model, with a
    prompt and a generation configuration, does. *)
Variable generate_content :
  generative_model → string → list (string * pyval) → provider_outcome.

Local Abbreviation fmt := (py_str str_object).

(** Lines 145-149: the model instance for the mode. *)
Definition selected_model (mode : pyval) : option generative_model :=
  if eq_str mode "censored" then gemini_model_censored models
  else if eq_str mode "uncensored" then gemini_model_uncensored models
  else None.

(** [selected_model.generate_content(prompt, generation_config=...)]: the
    call is recorded, then the service answers. *)
Definition call_generate_content (m : generative_model) (prompt : string)
    (generation_config : list (string * pyval)) : M (option response) := λ w,
  let w' := with_call w (GeminiCall m prompt generation_config) in
  match generate_content m prompt generation_config with
  | CallFails e => (Raise e, w')
  | CallReturns r => (Return r, w')
  end.

(** Lines 162-171: what is made of a response. *)
Definition read_response (response : option response) : M string :=
  match response with
  | None => mret "AI returned an empty or unreadable response."
  | Some r =>
      has_text ← lift (hasattr (response_text r));
      text_ok ← (if has_text : bool
                 then t ← lift (getattr "GenerateContentResponse" "text" (response_text r));
                      mret (Str.nonempty t)
                 else mret false);
      if text_ok : bool then
        lift (getattr "GenerateContentResponse" "text" (response_text r))
      else
        has_feedback ← lift (hasattr (response_prompt_feedback r));
        feedback_ok ← (if has_feedback : bool
                       then f ← lift (getattr "GenerateContentResponse" "prompt_feedback"
                                        (response_prompt_feedback r));
                            mret (feedback_truthy f)
                       else mret false);
        if feedback_ok : bool then
          f ← lift (getattr "GenerateContentResponse" "prompt_feedback"
                      (response_prompt_feedback r));
          name ← lift (of_sum (block_reason_name f));
          mret ("AI response was blocked by safety settings. Reason: " +:+ name)
        else
          mret "AI returned an empty or unreadable response."
  end.

(** Lines 173-187: the handler of [except Exception as e]. *)
Definition on_gemini_error (mode : pyval) (e : exn) : M string :=
  let error_message := exn_str e in
  if Str.contains "404" error_message && Str.contains "models/gemini-pro" error_message then
    mret ("AI (Gemini " +:+ fmt mode +:+ ") API Error: Model 'gemini-pro' not found or accessible. "
          +:+ "Ensure Generative Language API is enabled in your Google Cloud Project "
          +:+ "and your GOOGLE_API_KEY is correct and has the necessary permissions.")
  else if Str.contains "403" error_message then
    mret ("AI (Gemini " +:+ fmt mode
          +:+ ") API Error: Permission denied. Check your GOOGLE_API_KEY and its permissions.")
  else if Str.contains "500" error_message then
    mret ("AI (Gemini " +:+ fmt mode
          +:+ ") API Error: Internal server error. Please try again later.")
  else
    show Error ("Error calling Gemini API for '" +:+ fmt mode +:+ "' mode: " +:+ error_message);;
    mret ("AI (Gemini " +:+ fmt mode +:+ ") encountered an error: " +:+ error_message).

Definition generate_gemini_response (prompt : string) (temperature mode : pyval) : M string :=
  match selected_model mode with
  | None =>
      mret ("Error: Gemini API for '" +:+ fmt mode
            +:+ "' mode is not configured. Check your GOOGLE_API_KEY.")
  | Some selected_model =>
      try_except
        (let generation_config := [("temperature", temperature)] in
         response ← call_generate_content selected_model prompt generation_config;
         read_response response)
        (on_gemini_error mode)
  end.

End Gemini.

(** ** The chat turn *)

#[global] Instance result_ret : MRet result := λ A a, Return a.

#[global] Instance result_bind : MBind result := λ A B f r,
  match r with
  | Return a => f a
  | Raise e => Raise e
  | Rerun => Rerun
  end.

(** The dict of one message, [{"sender": ..., "text": ...}]. *)
Definition message_dict (sender text : string) : pyval :=
  PDict [("sender", PStr sender); ("text", PStr text)].

Definition WINDOW : Z := 10.

Section Chat.

Variable str_object : pyval → string.
Variable models : gemini_models.
Variable generate_content :
  generative_model → string → list (string * pyval) → provider_outcome.

Local Abbreviation fmt := (py_str str_object).

(** Lines 434-438: the system prompt. *)
Definition system_prompt (tone : pyval) : string :=
  "You are an AI Dungeon Master. "
  +:+ "The story's tone is: " +:+ fmt tone +:+ ". "
  +:+ "Generate the next part of the fantasy story based on the following conversation:"
  +:+ Str.LF +:+ Str.LF.

(** Line 444: [f"{msg['sender'].upper()}: {msg['text']}\n"]. *)
Definition context_line (msg : pyval) : result string :=
  sender ← py_getitem msg "sender";
  upper ← py_upper sender;
  text ← py_getitem msg "text";
  mret (upper +:+ ": " +:+ fmt text +:+ Str.LF).

(** Lines 443-444: the loop [for msg in ...: full_context += ...]. *)
Fixpoint add_context_lines (full_context : string) (msgs : list pyval) : result string :=
  match msgs with
  | [] => mret full_context
  | msg :: rest =>
      line ← context_line msg;
      add_context_lines (full_context +:+ line) rest
  end.

(** Lines 434-445: [full_context], from the session as it is. *)
Definition build_full_context : M string :=
  s ← get_session;
  let full_context := system_prompt (tone s) in
  msgs ← lift (py_last WINDOW (story_history s));
  full_context ← lift (add_context_lines full_context msgs);
  mret (full_context +:+ "AI:").

(** [st.session_state.story_history.append(item)]. *)
Definition append_to_history (item : pyval) : M unit :=
  s ← get_session;
  history ← lift (py_append (story_history s) item);
  set_story_history history.

(** Lines 425-458: what the script does with the value of [st.chat_input],
    [None] when the user sent nothing. *)
Definition on_chat_input (user_prompt : option string) : M unit :=
  match user_prompt with
  | Some user_prompt =>
      if Str.nonempty user_prompt then
        append_to_history (message_dict "user" user_prompt);;
        full_context ← build_full_context;
        s ← get_session;
        ai_response_text ←
          generate_gemini_response str_object models generate_content
            full_context (temperature s) (current_mode s);
        append_to_history (message_dict "ai" ai_response_text);;
        st_rerun
      else mret tt
  | None => mret tt
  end.

(** Lines 462-465: the welcome message of an empty story. *)
Definition seed_welcome : M unit :=
  s ← get_session;
  if truthy (story_history s) then mret tt
  else
    append_to_history
      (message_dict "ai" "Welcome, adventurer! What quest shall we embark on today?");;
    st_rerun.

End Chat.


(** Lines 115-126: the session of a new browser session, [uuid] being the
    string of the identifier [uuid.uuid4()] draws. *)
Definition fresh_session (uuid : string) : session_state :=
  SessionState (PList []) (PStr "censored") (PFloat (7 # 10)) (PStr "Fantasy") uuid.

(** ** Export and import of a story *)

(** What the export column shows. *)
Inductive export_widget : Type :=
| DownloadButton (label data file_name mime : string)
| DisabledButton (label : string).

(** The file the user uploads: its name and what
    [uploaded_file.read().decode("utf-8")] evaluates to. *)
Record uploaded_file : Type := UploadedFile {
  file_name : string;
  file_decoded : exn + string
}.

(** Lines 308-316: the dict [export_data]. *)
Definition export_data (s : session_state) : pyval :=
  PDict [("history", story_history s);
         ("settings", PDict [("current_mode", current_mode s);
                             ("temperature", temperature s);
                             ("tone", tone s)]);
         ("exported_from_user_id", PStr (user_id s))].

Section Transcript.

(** [json.dumps(v, indent=2)] and [json.loads(text)], from the [json]
    module: each returns, or raises the exception on the left. *)
Variable json_dumps : pyval → exn + string.
Variable json_loads : string → exn + pyval.

(** Lines 304-326: the export column. *)
Definition export_column : M export_widget :=
  s ← get_session;
  if truthy (story_history s) then
    json_for_export ← lift (of_sum (json_dumps (export_data s)));
    mret (DownloadButton "Export Story (JSON)" json_for_export
            ("dungeon_gpt_story_" +:+ String.substring 0 8 (user_id s) +:+ ".json")
            "application/json")
  else
    mret (DisabledButton "Export Story (JSON)").

(** Lines 350-360: what is done with the parsed document. *)
Definition apply_imported_data (imported_data : pyval) : M unit :=
  has_history ← lift (py_in "history" imported_data);
  both ← (if has_history : bool then lift (py_in "settings" imported_data) else mret false);
  if both : bool then
    history ← lift (py_getitem imported_data "history");
    set_story_history history;;
    settings ← lift (py_getitem imported_data "settings");
    s ← get_session;
    mode ← lift (py_get settings "current_mode" (current_mode s));
    set_current_mode mode;;
    settings ← lift (py_getitem imported_data "settings");
    s ← get_session;
    temp ← lift (py_get settings "temperature" (temperature s));
    set_temperature temp;;
    settings ← lift (py_getitem imported_data "settings");
    s ← get_session;
    tn ← lift (py_get settings "tone" (tone s));
    set_tone tn;;
    show Success "Story and settings imported successfully!"
  else
    show Error "Invalid JSON format. Please upload a file with 'history' and 'settings' keys.".

(** Lines 365-371: the two handlers, [except json.JSONDecodeError] first. *)
Definition on_import_error (e : exn) : M unit :=
  match exn_class_of e with
  | JSONDecodeError => show Error "Invalid JSON file. Please upload a valid JSON file."
  | _ => show Error ("Error importing story: " +:+ exn_str e)
  end.

(** Lines 343-371: the import form, once the widgets have their values. *)
Definition import_form (submit_button : bool) (uploaded_file : option uploaded_file) : M unit :=
  match uploaded_file with
  | Some file =>
      if submit_button then
        try_except
          (file_content ← lift (of_sum (file_decoded file));
           imported_data ← lift (of_sum (json_loads file_content));
           apply_imported_data imported_data;;
           st_rerun)
          on_import_error
      else mret tt
  | None => mret tt
  end.

End Transcript.

(** ** The settings widgets *)

Definition MODE_OPTIONS : list string := ["censored"; "uncensored"].

Definition TONE_OPTIONS : list string :=
  ["Fantasy"; "Sci-Fi"; "Horror"; "Mystery"; "Comedy"; "Historical"].

(** Line 385: the index given to the mode selector. *)
Definition mode_selector_index (s : session_state) : nat :=
  if eq_str (current_mode s) "censored" then 0%nat else 1%nat.

(** Line 405: the index given to the tone selector. *)
Definition tone_selector_index (str_object : pyval → string) (s : session_state) : result nat :=
  py_index str_object TONE_OPTIONS (tone s).

(** ** Firestore *)

(** Line 204: the document of the session of a user. *)
Definition session_document (user_id : string) : list string :=
  ["artifacts"; APP_ID; "users"; user_id; "stories"; "current_session_data"].

(** The server puts its time where the data has the sentinel. *)
Definition resolve (now : Z) (v : pyval) : pyval :=
  match v with
  | PServerTimestamp => PTimestamp now
  | _ => v
  end.

Definition written_fields (now : Z) (data : list (string * pyval)) : gmap string pyval :=
  list_to_map (prod_map id (resolve now) <$> data).

Definition with_db (w : world) (fs : firestore) : world :=
  World (session w) (notices w) (gemini_calls w) (Some fs).

Definition received (fs : firestore) (r : db_request) : firestore :=
  Firestore (documents fs) (server_time fs) (failing fs) (requests fs ++ [r]).

(** [doc_ref.get()]: the fields of the document, [None] when [doc.exists]
    is false. *)
Definition doc_get (path : list string) : M (option (gmap string pyval)) := λ w,
  match db w with
  | None => (Raise (no_attribute PNone "collection"), w)
  | Some fs =>
      let fs := received fs (ReqGet path) in
      match failing fs with
      | Some e => (Raise e, with_db w fs)
      | None => (Return (documents fs !! path), with_db w fs)
      end
  end.

(** [doc_ref.set(data, merge=merge)].  With [merge], the fields of [data]
    replace the fields of the same name and the other fields of the stored
    document stay; without, the document is replaced. *)
Definition doc_set (path : list string) (data : list (string * pyval)) (merge : bool)
    : M unit := λ w,
  match db w with
  | None => (Raise (no_attribute PNone "collection"), w)
  | Some fs =>
      let fs := received fs (ReqSet path data merge) in
      match failing fs with
      | Some e => (Raise e, with_db w fs)
      | None =>
          let old := default ∅ (documents fs !! path) in
          let new := written_fields (server_time fs) data in
          let doc := if merge then new ∪ old else new in
          (Return tt,
           with_db w (Firestore (<[path := doc]> (documents fs)) (server_time fs)
                                (failing fs) (requests fs)))
      end
  end.

Definition get_db : M (option firestore) := λ w, (Return (db w), w).

(** Lines 207-213: the dict [session_data]. *)
Definition session_data (s : session_state) : list (string * pyval) :=
  [("history", story_history s);
   ("current_mode", current_mode s);
   ("temperature", temperature s);
   ("tone", tone s);
   ("timestamp", PServerTimestamp)].

(** Lines 192-223. *)
Definition save_story_to_firestore : M bool :=
  db ← get_db;
  s ← get_session;
  if negb (bool_decide (is_Some db)) || negb (Str.nonempty (user_id s)) then
    show Warning "Cannot save: Firebase not initialized or user ID not available.";;
    mret false
  else
    try_except
      (let doc_ref := session_document (user_id s) in
       doc_set doc_ref (session_data s) true;;
       show Success "Current session saved successfully to cloud! You can resume from here.";;
       mret true)
      (λ e, show Error ("Error saving session: " +:+ exn_str e);;
            mret false).

(** Lines 225-255. *)
Definition load_story_from_firestore : M bool :=
  db ← get_db;
  s ← get_session;
  if negb (bool_decide (is_Some db)) || negb (Str.nonempty (user_id s)) then
    show Warning "Cannot load: Firebase not initialized or user ID not available.";;
    mret false
  else
    try_except
      (let doc_ref := session_document (user_id s) in
       doc ← doc_get doc_ref;
       match doc with
       | Some data =>
           set_story_history (default (PList []) (data !! "history"));;
           set_current_mode (default (PStr "censored") (data !! "current_mode"));;
           set_temperature (default (PFloat (7 # 10)) (data !! "temperature"));;
           set_tone (default (PStr "Fantasy") (data !! "tone"));;
           show Success "Session loaded successfully from cloud!";;
           mret true
       | None =>
           show Info "No saved session found for this user ID.";;
           mret false
       end)
      (λ e, show Error ("Error loading session: " +:+ exn_str e);;
            mret false).

(** Lines 295-302: the buttons Save Session and Load Session. *)
Definition save_button : M unit :=
  save_story_to_firestore;;
  mret tt.

Definition load_button : M unit :=
  loaded ← load_story_from_firestore;
  if loaded : bool then st_rerun else mret tt.

(** ** A conversation log, as the data model has it *)

(** One turn: who sent it and its text. *)
Record Turn : Type := MkTurn { turn_sender : string; turn_text : string }.

Definition turn_value (t : Turn) : pyval :=
  message_dict (turn_sender t) (turn_text t).

(** The list object [st.session_state.story_history] holds for a log. *)
Definition log_value (log : list Turn) : pyval := PList (turn_value <$> log).

(** The last [n] turns of a log, all of them when there are fewer. *)
Definition last_turns (n : nat) (log : list Turn) : list Turn :=
  if (length log <=? n)%nat then log else drop (length log - n) log.

(** A turn on its line: the sender in upper case, a colon and a space,
    the text. *)
Definition turn_line (t : Turn) : string :=
  Str.upper (turn_sender t) +:+ ": " +:+ turn_text t +:+ Str.LF.

(** ** A reference reader and writer of JSON

    A small reader and writer of JSON texts, to run the import and the export
    on concrete files.  The writer lays a document out as
    [json.dumps(v, indent=2)] does; it writes a float that has a finite
    decimal expansion of at most 17 places, and characters outside ASCII as
    they are.  The reader takes numbers without exponent. *)

Module RefJson.

Definition DQ : ascii := "034"%char.
Definition BACKSLASH : ascii := "092"%char.
Definition CR : ascii := "013"%char.
Definition TAB : ascii := "009"%char.
Definition NL : ascii := "010"%char.
Definition BS : ascii := "008"%char.
Definition FF : ascii := "012"%char.

Definition is_ws (c : ascii) : bool :=
  bool_decide (c = " "%char ∨ c = NL ∨ c = CR ∨ c = TAB).

Fixpoint skip_ws (s : list ascii) : list ascii :=
  match s with
  | c :: r => if is_ws c then skip_ws r else s
  | [] => []
  end.

Definition hex_digit (n : nat) : ascii :=
  nth n (list_ascii_of_string "0123456789abcdef") "0"%char.

Definition hex_value (c : ascii) : option nat :=
  let n := nat_of_ascii c in
  if ((48 <=? n) && (n <=? 57))%nat then Some (n - 48)%nat
  else if ((97 <=? n) && (n <=? 102))%nat then Some (n - 87)%nat
  else if ((65 <=? n) && (n <=? 70))%nat then Some (n - 55)%nat
  else None.

Definition escape_char (c : ascii) : list ascii :=
  if bool_decide (c = DQ) then [BACKSLASH; DQ]
  else if bool_decide (c = BACKSLASH) then [BACKSLASH; BACKSLASH]
  else if bool_decide (c = NL) then [BACKSLASH; "n"%char]
  else if bool_decide (c = CR) then [BACKSLASH; "r"%char]
  else if bool_decide (c = TAB) then [BACKSLASH; "t"%char]
  else if bool_decide (c = BS) then [BACKSLASH; "b"%char]
  else if bool_decide (c = FF) then [BACKSLASH; "f"%char]
  else if (nat_of_ascii c <? 32)%nat then
    [BACKSLASH; "u"%char; "0"%char; "0"%char;
     hex_digit (nat_of_ascii c / 16); hex_digit (nat_of_ascii c mod 16)]
  else [c].

(** A string between double quotes, with its escapes. *)
Definition write_string (s : string) : string :=
  string_of_list_ascii ([DQ] ++ (list_ascii_of_string s ≫= escape_char) ++ [DQ]).

(** The least number of decimal places, from [k] on and within [fuel] more,
    that writes [n / d] exactly. *)
Fixpoint places (fuel k : nat) (n d : Z) : option nat :=
  match fuel with
  | O => None
  | S fuel =>
      if (n * 10 ^ Z.of_nat k) mod d =? 0 then Some k else places fuel (S k) n d
  end.

Definition pad_left (width : nat) (s : string) : string :=
  string_of_list_ascii (replicate (width - String.length s) "0"%char) +:+ s.

(** A float as Python writes one that has few decimal places: [0.7], [1.0],
    [-0.05]. *)
Definition write_float (q : Q) : option string :=
  let n := Qnum q in
  let d := Z.pos (Qden q) in
  k ← places 17 1 n d;
  let scaled := Z.abs n * 10 ^ Z.of_nat k / d in
  Some ((if n <? 0 then "-" else "")
        +:+ pretty (scaled / 10 ^ Z.of_nat k) +:+ "."
        +:+ pad_left k (pretty (scaled mod 10 ^ Z.of_nat k))).

Definition indent (level : nat) : string :=
  string_of_list_ascii (replicate (2 * level) " "%char).

(** The items of a list or dict, one per line at [level]. *)
Fixpoint lines (level : nat) (items : list string) : string :=
  match items with
  | [] => ""
  | [x] => indent level +:+ x +:+ Str.LF
  | x :: rest => indent level +:+ x +:+ "," +:+ Str.LF +:+ lines level rest
  end.

Fixpoint write (level : nat) (v : pyval) : option string :=
  match v with
  | PNone => Some "null"
  | PBool true => Some "true"
  | PBool false => Some "false"
  | PInt n => Some (pretty n)
  | PFloat q => write_float q
  | PStr s => Some (write_string s)
  | PList [] => Some "[]"
  | PList items =>
      texts ← (fix each (l : list pyval) : option (list string) :=
                 match l with
                 | [] => Some []
                 | x :: r => t ← write (S level) x; ts ← each r; Some (t :: ts)
                 end) items;
      Some ("[" +:+ Str.LF +:+ lines (S level) texts +:+ indent level +:+ "]")
  | PDict [] => Some "{}"
  | PDict fields =>
      texts ← (fix each (l : list (string * pyval)) : option (list string) :=
                 match l with
                 | [] => Some []
                 | (k, x) :: r =>
                     t ← write (S level) x; ts ← each r;
                     Some ((write_string k +:+ ": " +:+ t) :: ts)
                 end) fields;
      Some ("{" +:+ Str.LF +:+ lines (S level) texts +:+ indent level +:+ "}")
  | PServerTimestamp => None
  | PTimestamp _ => None
  end.

(** [json.dumps(v, indent=2)]. *)
Definition dumps (v : pyval) : exn + string :=
  match write 0 v with
  | Some text => inr text
  | None => inl (Exn TypeError "Object is not JSON serializable")
  end.

(** The characters of a string up to its closing quote, escapes undone. *)
Fixpoint read_string (s : list ascii) (acc : list ascii) : option (string * list ascii) :=
  match s with
  | [] => None
  | c :: r =>
      if bool_decide (c = DQ) then Some (string_of_list_ascii (reverse acc), r)
      else if bool_decide (c = BACKSLASH) then
        match r with
        | e :: r' =>
            if bool_decide (e = "u"%char) then
              match r' with
              | a :: b :: c1 :: c2 :: r'' =>
                  match hex_value a, hex_value b, hex_value c1, hex_value c2 with
                  | Some 0%nat, Some 0%nat, Some h, Some l =>
                      read_string r'' (ascii_of_nat (16 * h + l) :: acc)
                  | _, _, _, _ => None
                  end
              | _ => None
              end
            else
              match (if bool_decide (e = DQ) then Some DQ
                     else if bool_decide (e = BACKSLASH) then Some BACKSLASH
                     else if bool_decide (e = "/"%char) then Some "/"%char
                     else if bool_decide (e = "n"%char) then Some NL
                     else if bool_decide (e = "r"%char) then Some CR
                     else if bool_decide (e = "t"%char) then Some TAB
                     else if bool_decide (e = "b"%char) then Some BS
                     else if bool_decide (e = "f"%char) then Some FF
                     else None) with
              | Some x => read_string r' (x :: acc)
              | None => None
              end
        | [] => None
        end
      else if (nat_of_ascii c <? 32)%nat then None
      else read_string r (c :: acc)
  end.

(** The digits at the head of a text, and their number as read so far. *)
Fixpoint read_digits (s : list ascii) (acc : Z) (count : nat) : Z * nat * list ascii :=
  match s with
  | c :: r =>
      match Ascii.is_nat c with
      | Some d => read_digits r (10 * acc + Z.of_nat d) (S count)
      | None => (acc, count, s)
      end
  | [] => (acc, count, [])
  end.

(** A number: an [int], or a [float] when it has a decimal point. *)
Definition read_number (s : list ascii) : option (pyval * list ascii) :=
  let '(negative, s) := match s with
                        | c :: r => if bool_decide (c = "-"%char) then (true, r) else (false, s)
                        | [] => (false, s)
                        end in
  let '(whole, count, rest) := read_digits s 0 0 in
  let sign := if negative : bool then -1 else 1 in
  if bool_decide (count = 0%nat) then None
  else
    match rest with
    | c :: r =>
        if bool_decide (c = "."%char) then
          let '(frac, places, rest') := read_digits r 0 0 in
          if bool_decide (places = 0%nat) then None
          else Some (PFloat (Qred (Qmake (sign * (whole * 10 ^ Z.of_nat places + frac))
                                         (Z.to_pos (10 ^ Z.of_nat places)))), rest')
        else Some (PInt (sign * whole), rest)
    | [] => Some (PInt (sign * whole), rest)
    end.

(** A key set in a dict: a key that is there keeps its place and takes the
    new value. *)
Fixpoint dict_set (fields : list (string * pyval)) (key : string) (v : pyval)
    : list (string * pyval) :=
  match fields with
  | [] => [(key, v)]
  | (k, x) :: rest =>
      if String.eqb k key then (k, v) :: rest else (k, x) :: dict_set rest key v
  end.

Definition starts_with (word : string) (s : list ascii) : option (list ascii) :=
  let w := list_ascii_of_string word in
  if bool_decide (take (length w) s = w) then Some (drop (length w) s) else None.

Fixpoint value (fuel : nat) (s : list ascii) {struct fuel} : option (pyval * list ascii) :=
  match fuel with
  | O => None
  | S fuel =>
      match skip_ws s with
      | [] => None
      | c :: r =>
          if bool_decide (c = DQ) then
            '(str, rest) ← read_string r []; Some (PStr str, rest)
          else if bool_decide (c = "["%char) then
            match skip_ws r with
            | c' :: r' =>
                if bool_decide (c' = "]"%char) then Some (PList [], r')
                else elements fuel r []
            | [] => None
            end
          else if bool_decide (c = "{"%char) then
            match skip_ws r with
            | c' :: r' =>
                if bool_decide (c' = "}"%char) then Some (PDict [], r')
                else members fuel r []
            | [] => None
            end
          else
            match starts_with "null" (c :: r), starts_with "true" (c :: r),
                  starts_with "false" (c :: r) with
            | Some rest, _, _ => Some (PNone, rest)
            | _, Some rest, _ => Some (PBool true, rest)
            | _, _, Some rest => Some (PBool false, rest)
            | _, _, _ => read_number (c :: r)
            end
      end
  end
with elements (fuel : nat) (s : list ascii) (acc : list pyval) {struct fuel}
    : option (pyval * list ascii) :=
  match fuel with
  | O => None
  | S fuel =>
      '(v, rest) ← value fuel s;
      match skip_ws rest with
      | c :: r =>
          if bool_decide (c = ","%char) then elements fuel r (acc ++ [v])
          else if bool_decide (c = "]"%char) then Some (PList (acc ++ [v]), r)
          else None
      | [] => None
      end
  end
with members (fuel : nat) (s : list ascii) (acc : list (string * pyval)) {struct fuel}
    : option (pyval * list ascii) :=
  match fuel with
  | O => None
  | S fuel =>
      match skip_ws s with
      | q :: r =>
          if bool_decide (q = DQ) then
            '(key, rest) ← read_string r [];
            match skip_ws rest with
            | c :: r' =>
                if bool_decide (c = ":"%char) then
                  '(v, rest') ← value fuel r';
                  match skip_ws rest' with
                  | c' :: r'' =>
                      if bool_decide (c' = ","%char) then members fuel r'' (dict_set acc key v)
                      else if bool_decide (c' = "}"%char) then Some (PDict (dict_set acc key v), r'')
                      else None
                  | [] => None
                  end
                else None
            | [] => None
            end
          else None
      | [] => None
      end
  end.

(** [json.loads(text)]. *)
Definition loads (text : string) : exn + pyval :=
  let s := list_ascii_of_string text in
  match value (2 * length s + 2) s with
  | Some (v, rest) =>
      match skip_ws rest with
      | [] => inr v
      | _ => inl (Exn JSONDecodeError "Extra data")
      end
  | None => inl (Exn JSONDecodeError "Expecting value")
  end.

(** A JSON text typed with single quotes in place of the double ones. *)
Definition typed (s : string) : string :=
  string_of_list_ascii
    ((λ c, if bool_decide (c = "'"%char) then DQ else c) <$> list_ascii_of_string s).

End RefJson.

(** ** Concrete sessions, services and files *)

Module Demo.

(** [str()] of an object that is not a string, for the runs below; none of
    them formats such an object. *)
Definition plain_str (v : pyval) : string := "<" +:+ type_name v +:+ ">".

Definition welcome : Turn :=
  MkTurn "ai" "Welcome, adventurer! What quest shall we embark on today?".

(** The session after the first run of the script. *)
Definition session0 : session_state :=
  SessionState (log_value [welcome]) (PStr "censored") (PFloat (7 # 10)) (PStr "Fantasy")
               "0b7e1c52-9d1f-4c55-8a53-3f1f0a6f2e11".

(** A session in the uncensored mode, with the tone Horror. *)
Definition session1 : session_state :=
  SessionState (log_value [welcome; MkTurn "user" "I open the crypt."])
               (PStr "uncensored") (PFloat (1 # 2)) (PStr "Horror")
               "5a0c9d7e-2b64-4e0a-b3c1-7d9e4f1a8c20".

(** A log of twelve turns. *)
Definition twelve_turns : list Turn :=
  [welcome;
   MkTurn "user" "one"; MkTurn "ai" "two"; MkTurn "user" "three"; MkTurn "ai" "four";
   MkTurn "user" "five"; MkTurn "ai" "six"; MkTurn "user" "seven"; MkTurn "ai" "eight";
   MkTurn "user" "nine"; MkTurn "ai" "ten"; MkTurn "user" "eleven"].

Definition session12 : session_state :=
  SessionState (log_value twelve_turns) (PStr "censored") (PFloat (7 # 10)) (PStr "Horror")
               "0b7e1c52-9d1f-4c55-8a53-3f1f0a6f2e11".

(** A world with no notice shown yet, no call made and no data base. *)
Definition world_of (s : session_state) : world := World s [] [] None.

(** The two model instances of a configured SDK, and those of a script that
    has no key. *)
Definition both_models : gemini_models :=
  GeminiModels (Some (GenerativeModel "gemini-1.5-flash-latest" _DEFAULT_SAFETY_SETTINGS))
               (Some (GenerativeModel "gemini-1.5-flash-latest" _UNCENSORED_SAFETY_SETTINGS)).

Definition no_models : gemini_models := GeminiModels None None.

(** Services: one that always fails with the given exception, one that
    always answers with a text. *)
Definition failing_service (e : exn)
    : generative_model → string → list (string * pyval) → provider_outcome :=
  λ _ _ _, CallFails e.

Definition answering_service (text : string)
    : generative_model → string → list (string * pyval) → provider_outcome :=
  λ _ _ _, CallReturns (Some (Response (Attr text) (Attr (PromptFeedback false (inr ""))))).

Definition permission_denied : exn :=
  Exn ServiceError "403 Permission denied. Your API key was reported as leaked.".

(** A failure of status 403 whose text also names the pair the handler looks
    for first. *)
Definition permission_denied_on_gemini_pro : exn :=
  Exn ServiceError "403 Permission denied on resource models/gemini-pro (request 404a7)".

(** Data bases: an empty one that answers, one that holds a document for
    [session0] with a field another program wrote, one that is down. *)
Definition empty_store : firestore := Firestore ∅ 1700000000 None [].

Definition store_with_bookmark : firestore :=
  Firestore {[ session_document (user_id session0)
               := {[ "bookmark" := PInt 3; "tone" := PStr "Comedy" ]} ]}
            1700000000 None [].

Definition broken_store : firestore :=
  Firestore ∅ 1700000000 (Some (Exn ServiceError "503 The service is currently unavailable.")) [].

Definition world_with_store (s : session_state) (fs : firestore) : world :=
  World s [] [] (Some fs).

(** The text of the export of [session0]. *)
Definition exported_text : string :=
  match RefJson.dumps (export_data session0) with
  | inr text => text
  | inl _ => ""
  end.

(** Files to import. *)
Definition file_of (text : string) : option uploaded_file :=
  Some (UploadedFile "story.json" (inr (RefJson.typed text))).

Definition partial_settings_text : string :=
  "{'history': [{'sender': 'ai', 'text': 'Hello'}], 'settings': {'temperature': 0.9}}".

Definition invalid_settings_text : string :=
  "{'history': [], 'settings': {'current_mode': 'foo', 'temperature': 1.5, 'tone': 'Unknown'}}".

End Demo.

(** ** Firebase initialisation *)

Section Firebase.

(** [json.loads], the making of the credentials and of the app
    ([credentials.Certificate(cred_dict)] then
    [firebase_admin.initialize_app(cred)]), and [firestore.client()]: each
    returns, or raises the exception on the left. *)
Variable json_loads : string → exn + pyval.
Variable initialize_app : pyval → exn + unit.
Variable firestore_client : exn + firestore.

(** Lines 41-67.  [apps] tells whether [firebase_admin._apps] holds an app
    already. *)
Definition initialize_firebase (apps : bool) (FIREBASE_SERVICE_ACCOUNT_KEY : option string)
    : M (option firestore) :=
  if negb apps then
    try_except
      (match FIREBASE_SERVICE_ACCOUNT_KEY with
       | Some key =>
           if Str.nonempty key then
             cred_dict ← lift (of_sum (json_loads key));
             lift (of_sum (initialize_app cred_dict));;
             show Success "Firebase Admin SDK initialized.";;
             client ← lift (of_sum firestore_client);
             mret (Some client)
           else
             show Error "Firebase Service Account Key not found. Please add it to Streamlit Secrets or your .env file.";;
             mret None
       | None =>
           show Error "Firebase Service Account Key not found. Please add it to Streamlit Secrets or your .env file.";;
           mret None
       end)
      (λ e, show Error ("Error initializing Firebase Admin SDK: " +:+ exn_str e);;
            mret None)
  else
    client ← lift (of_sum firestore_client);
    mret (Some client).

End Firebase.

(** Line 69: [db = initialize_firebase()]. *)
Definition set_db (client : option firestore) : M unit := λ w,
  (Return tt, World (session w) (notices w) (gemini_calls w) client).

(** ** More concrete sessions and services *)

Module Cases.

(** A session whose identifier is empty. *)
Definition anonymous : session_state :=
  SessionState (PList []) (PStr "censored") (PFloat (7 # 10)) (PStr "Fantasy") "".

(** A log of eleven turns and the ten that are its end. *)
Definition ten_turns : list Turn :=
  [MkTurn "ai" "two"; MkTurn "user" "three"; MkTurn "ai" "four";
   MkTurn "user" "five"; MkTurn "ai" "six"; MkTurn "user" "seven"; MkTurn "ai" "eight";
   MkTurn "user" "nine"; MkTurn "ai" "ten"; MkTurn "user" "eleven"].

(** A service that is blocked by the safety settings, and one whose response
    raises when its text is read. *)
Definition blocked_service
    : generative_model → string → list (string * pyval) → provider_outcome :=
  λ _ _ _, CallReturns (Some (Response (Attr "") (Attr (PromptFeedback true (inr "SAFETY"))))).

Definition unreadable : exn :=
  Exn ValueError "The response.text quick accessor only works when the response contains a valid Part.".

Definition unreadable_service
    : generative_model → string → list (string * pyval) → provider_outcome :=
  λ _ _ _, CallReturns (Some (Response (AttrRaises unreadable)
                                (Attr (PromptFeedback true (inr "SAFETY"))))).

Definition overloaded : exn := Exn ServiceError "500 Internal error encountered.".

(** A data base that holds an empty document for the session of
    [Demo.session0]. *)
Definition store_with_empty_document : firestore :=
  Firestore {[ session_document (user_id Demo.session0) := ∅ ]} 1700000000 None [].

(** A file that is not UTF-8. *)
Definition latin1_file : option uploaded_file :=
  Some (UploadedFile "story.json"
          (inl (Exn UnicodeDecodeError
                  "'utf-8' codec can't decode byte 0xe9 in position 3: invalid continuation byte"))).

End Cases.

(** ** Proof tools *)

(** Unfolds the monad and the session accessors in the goal. *)
Ltac run :=
  repeat (cbn [mbind mret M_bind M_ret result_bind result_ret lift raise st_rerun try_except
               get_session put_session set_story_history set_current_mode set_temperature
               set_tone show get_db of_sum session notices gemini_calls db
               story_history current_mode temperature tone user_id fst snd];
          unfold mbind, mret, M_bind, M_ret, result_bind, result_ret, lift, raise, st_rerun,
                 try_except, get_session, put_session, set_story_history, set_current_mode,
                 set_temperature, set_tone, show, get_db, of_sum).

(** * Properties *)

(** ** Strings and slices *)

Lemma string_app_assoc (a b c : string) : (a +:+ b) +:+ c = a +:+ (b +:+ c).
Proof. induction a as [|x a IH]; [reflexivity | exact (f_equal (String x) IH)]. Qed.

Lemma string_app_nil_r (a : string) : a +:+ "" = a.
Proof. induction a as [|x a IH]; [reflexivity | exact (f_equal (String x) IH)]. Qed.

Lemma nonempty_true (s : string) : s ≠ "" → Str.nonempty s = true.
Proof. destruct s; [congruence | reflexivity]. Qed.

(** [l[-n:]] is the last [n] items of [l], all of them when there are fewer. *)
Lemma slice_from_last {A} (n : nat) (l : list A) :
  (0 < n)%nat →
  slice_from (- Z.of_nat n) l = if (length l <=? n)%nat then l else drop (length l - n) l.
Proof.
  intros Hn. unfold slice_from.
  assert (((- Z.of_nat n) <? 0) = true) as -> by (apply Z.ltb_lt; lia).
  destruct (Nat.leb_spec (length l) n) as [Hle | Hgt].
  - replace (Z.to_nat (Z.max 0 (- Z.of_nat n + Z.of_nat (length l)))) with 0%nat by lia.
    reflexivity.
  - f_equal. lia.
Qed.

Lemma slice_from_log (log : list Turn) :
  slice_from (- WINDOW) (turn_value <$> log) = turn_value <$> last_turns 10 log.
Proof.
  change (- WINDOW) with (- Z.of_nat 10).
  rewrite slice_from_last by lia.
  rewrite length_fmap. unfold last_turns.
  destruct (length log <=? 10)%nat; [reflexivity | now rewrite fmap_drop].
Qed.

Lemma last_turns_of_twelve (log : list Turn) :
  length log = 12%nat → last_turns 10 log = drop 2 log.
Proof. intros H. unfold last_turns. now rewrite H. Qed.

(** A log that is not empty is a history that is true. *)
Lemma log_value_truthy (log : list Turn) : log ≠ [] → truthy (log_value log) = true.
Proof. destruct log; [congruence | reflexivity]. Qed.

(** ** The monad *)

Lemma bind_return {A B} (m : M A) (f : A → M B) (w w' : world) (a : A) :
  m w = (Return a, w') → (m ≫= f) w = f a w'.
Proof. intros H. unfold mbind, M_bind. now rewrite H. Qed.

(** ** The prompt and the chat turn *)

Section ChatProperties.

Variable str_object : pyval → string.

(** The loop over the messages of a log adds the line of each turn, in
    order. *)
Lemma add_context_lines_log (log : list Turn) (full_context : string) :
  add_context_lines str_object full_context (turn_value <$> log)
  = Return (full_context +:+ Str.concat (turn_line <$> log)).
Proof.
  revert full_context. induction log as [|t log IH]; intros full_context.
  - simpl. now rewrite string_app_nil_r.
  - cbn [fmap list_fmap add_context_lines].
    assert (context_line str_object (turn_value t) = Return (turn_line t)) as Hline
      by (destruct t; reflexivity).
    rewrite Hline. cbn [mbind result_bind]. rewrite IH.
    cbn [Str.concat]. now rewrite string_app_assoc.
Qed.

Lemma build_full_context_log (w : world) (log : list Turn) :
  story_history (session w) = log_value log →
  build_full_context str_object w
  = (Return (system_prompt str_object (tone (session w))
             +:+ Str.concat (turn_line <$> last_turns 10 log) +:+ "AI:"), w).
Proof.
  intros Hlog. unfold build_full_context. run. rewrite Hlog.
  unfold log_value, py_last. rewrite slice_from_log, add_context_lines_log.
  now rewrite string_app_assoc.
Qed.

(** C1.  For a session whose history is the log [log] and whose tone is the
    string [tn], the prompt is exactly: the preamble, which names the role of
    the assistant (AI Dungeon Master) and the tone [tn]; then the last 10
    turns of the log, all of them when there are fewer, in the order of the
    log, each on a line of its own as the sender in upper case, a colon and a
    space, and the text; then the cue [AI:].  For a log of 12 turns these
    lines are those of the turns 3 to 12. *)
Theorem prompt_is_preamble_last_turns_and_cue (w : world) (log : list Turn) (tn : string) :
  story_history (session w) = log_value log →
  tone (session w) = PStr tn →
  let preamble :=
    "You are an AI Dungeon Master. The story's tone is: " +:+ tn
    +:+ ". Generate the next part of the fantasy story based on the following conversation:"
    +:+ Str.LF +:+ Str.LF in
  build_full_context str_object w
  = (Return (preamble +:+ Str.concat (turn_line <$> last_turns 10 log) +:+ "AI:"), w)
  ∧ (length log = 12%nat →
     build_full_context str_object w
     = (Return (preamble +:+ Str.concat (turn_line <$> drop 2 log) +:+ "AI:"), w)).
Proof.
  intros Hlog Htone preamble.
  assert (system_prompt str_object (tone (session w)) = preamble) as Hpre
    by (rewrite Htone; reflexivity).
  split.
  - rewrite (build_full_context_log w log Hlog), Hpre. reflexivity.
  - intros H12. rewrite (build_full_context_log w log Hlog), Hpre.
    now rewrite last_turns_of_twelve.
Qed.

End ChatProperties.

(** ** Generation *)

Section GenerationProperties.

Variable str_object : pyval → string.
Variable models : gemini_models.
Variable generate_content :
  generative_model → string → list (string * pyval) → provider_outcome.

(** Reading a response changes nothing in the world. *)
Lemma read_response_frame (r : option response) (w : world) :
  ∃ res : exn + string, read_response r w = (of_sum res, w).
Proof.
  destruct r as [[text feedback]|];
    [|by exists (inr "AI returned an empty or unreadable response.")].
  unfold read_response. cbn [response_text response_prompt_feedback].
  destruct text as [|e|t]; run; cbn [hasattr getattr];
    try (destruct (Str.nonempty t); [by eexists (inr _)|]);
    try (by eexists (inl _));
    (destruct feedback as [|e|[[] [e|name]]];
     cbn [hasattr getattr feedback_truthy block_reason_name];
     first [by eexists (inr _) | by eexists (inl _)]).
Qed.

(** The handler of the exceptions returns a message, and leaves the session
    and the data base as they were. *)
Lemma on_gemini_error_returns (mode : pyval) (e : exn) (w : world) :
  ∃ (reply : string) (w' : world),
    on_gemini_error str_object mode e w = (Return reply, w')
    ∧ session w' = session w ∧ db w' = db w ∧ gemini_calls w' = gemini_calls w.
Proof.
  unfold on_gemini_error.
  destruct (Str.contains "404" (exn_str e) && Str.contains "models/gemini-pro" (exn_str e));
    [|destruct (Str.contains "403" (exn_str e)); [|destruct (Str.contains "500" (exn_str e))]];
    run; eexists _, _; repeat split; reflexivity.
Qed.

(** Whatever the service does, [generate_gemini_response] returns a string:
    no exception leaves it, and the session and the data base are as they
    were. *)
Lemma generate_gemini_response_returns (prompt : string) (temp mode : pyval) (w : world) :
  ∃ (reply : string) (w' : world),
    generate_gemini_response str_object models generate_content prompt temp mode w
    = (Return reply, w')
    ∧ session w' = session w ∧ db w' = db w.
Proof.
  unfold generate_gemini_response.
  destruct (selected_model models mode) as [m|];
    [|eexists _, _; repeat split; reflexivity].
  unfold try_except, call_generate_content, mbind, M_bind. cbv zeta beta.
  destruct (generate_content m prompt [("temperature", temp)]) as [e | r]; cbv beta iota.
  - destruct (on_gemini_error_returns mode e
                (with_call w (GeminiCall m prompt [("temperature", temp)])))
      as (reply & w' & -> & Hs & Hd & _).
    eexists _, _; repeat split; [exact Hs | exact Hd].
  - destruct (read_response_frame r
                (with_call w (GeminiCall m prompt [("temperature", temp)])))
      as [[e | reply] ->]; cbn [of_sum].
    + destruct (on_gemini_error_returns mode e
                  (with_call w (GeminiCall m prompt [("temperature", temp)])))
        as (reply & w' & -> & Hs & Hd & _).
      eexists _, _; repeat split; [exact Hs | exact Hd].
    + eexists _, _; repeat split; reflexivity.
Qed.

(** The messages of a generation that gave no text: a response without
    text whose prompt feedback is set and names a block reason, and a
    response that is false. *)
Lemma generate_blocked (prompt : string) (temp mode : pyval) (w : world)
    (m : generative_model) (reason : string) :
  selected_model models mode = Some m →
  generate_content m prompt [("temperature", temp)]
  = CallReturns (Some (Response NoAttribute (Attr (PromptFeedback true (inr reason))))) →
  generate_gemini_response str_object models generate_content prompt temp mode w
  = (Return ("AI response was blocked by safety settings. Reason: " +:+ reason),
     with_call w (GeminiCall m prompt [("temperature", temp)])).
Proof.
  intros Hm Hcall. unfold generate_gemini_response. rewrite Hm.
  unfold try_except, call_generate_content, mbind, M_bind. cbv zeta beta.
  now rewrite Hcall.
Qed.

Lemma generate_empty (prompt : string) (temp mode : pyval) (w : world)
    (m : generative_model) :
  selected_model models mode = Some m →
  generate_content m prompt [("temperature", temp)] = CallReturns None →
  generate_gemini_response str_object models generate_content prompt temp mode w
  = (Return "AI returned an empty or unreadable response.",
     with_call w (GeminiCall m prompt [("temperature", temp)])).
Proof.
  intros Hm Hcall. unfold generate_gemini_response. rewrite Hm.
  unfold try_except, call_generate_content, mbind, M_bind. cbv zeta beta.
  now rewrite Hcall.
Qed.

(** C7.  When there is no model instance for the mode (the mode is
    ['censored'] or ['uncensored'] and its instance is [None], as when the
    key is absent, or the mode is neither), [generate_gemini_response]
    returns at once the message that the Gemini API is not configured and
    points at GOOGLE_API_KEY; the world is as it was, so no call of the
    service was made. *)
Theorem generate_not_configured (prompt : string) (temp mode : pyval) (w : world) :
  selected_model models mode = None →
  generate_gemini_response str_object models generate_content prompt temp mode w
  = (Return ("Error: Gemini API for '" +:+ py_str str_object mode
             +:+ "' mode is not configured. Check your GOOGLE_API_KEY."), w)
  ∧ gemini_calls
      (snd (generate_gemini_response str_object models generate_content prompt temp mode w))
    = gemini_calls w.
Proof.
  intros Hnone. unfold generate_gemini_response. rewrite Hnone. split; reflexivity.
Qed.

(** C3, as amended.  When the call of the service raises an exception whose
    text contains [403], and does not contain both [404] and
    [models/gemini-pro] (the pair the handler looks for first),
    [generate_gemini_response] returns the message of a denied permission;
    it raises nothing, the one call is recorded, and the session, with its
    history, is as it was. *)
Theorem generate_permission_denied (prompt : string) (temp mode : pyval) (w : world)
    (m : generative_model) (e : exn) :
  selected_model models mode = Some m →
  generate_content m prompt [("temperature", temp)] = CallFails e →
  Str.contains "403" (exn_str e) = true →
  Str.contains "404" (exn_str e) && Str.contains "models/gemini-pro" (exn_str e) = false →
  generate_gemini_response str_object models generate_content prompt temp mode w
  = (Return ("AI (Gemini " +:+ py_str str_object mode
             +:+ ") API Error: Permission denied. Check your GOOGLE_API_KEY and its permissions."),
     with_call w (GeminiCall m prompt [("temperature", temp)]))
  ∧ session
      (snd (generate_gemini_response str_object models generate_content prompt temp mode w))
    = session w.
Proof.
  intros Hm Hcall H403 H404.
  assert (generate_gemini_response str_object models generate_content prompt temp mode w
          = (Return ("AI (Gemini " +:+ py_str str_object mode
                     +:+ ") API Error: Permission denied. Check your GOOGLE_API_KEY and its permissions."),
             with_call w (GeminiCall m prompt [("temperature", temp)]))) as Hgen.
  { unfold generate_gemini_response. rewrite Hm.
    unfold try_except, call_generate_content, mbind, M_bind. cbv zeta beta.
    rewrite Hcall. cbv beta iota.
    unfold on_gemini_error. rewrite H404, H403. reflexivity. }
  split; [exact Hgen | now rewrite Hgen].
Qed.

(** Appending a turn to a history that is a log. *)
Lemma append_to_history_log (w : world) (log : list Turn) (sender text : string) :
  story_history (session w) = log_value log →
  append_to_history (message_dict sender text) w
  = (Return tt,
     with_session w
       (SessionState (log_value (log ++ [MkTurn sender text])) (current_mode (session w))
                     (temperature (session w)) (tone (session w)) (user_id (session w)))).
Proof.
  intros Hlog. unfold append_to_history. run. rewrite Hlog.
  unfold log_value at 1. cbn [py_append].
  unfold log_value. now rewrite fmap_app.
Qed.

(** C10.  A chat turn on a session whose history is the log [log], with the
    prompt [user_prompt] that is not empty: the turn of the user is appended,
    the prompt is built from the log with that turn, the text
    [generate_gemini_response] returns for it (the continuation, or the
    message of a blocked, empty or failed generation) is appended as one turn
    of the AI, and the script reruns.  The log has grown by exactly these two
    turns, the turns before are as they were, and so are the settings. *)
Theorem chat_turn_appends_user_then_ai (w : world) (log : list Turn) (user_prompt : string) :
  story_history (session w) = log_value log →
  user_prompt ≠ "" →
  ∃ (full_context reply : string) (w2 : world),
    let with_history (w0 : world) (turns : list Turn) :=
      with_session w0
        (SessionState (log_value turns) (current_mode (session w)) (temperature (session w))
                      (tone (session w)) (user_id (session w))) in
    let w1 := with_history w (log ++ [MkTurn "user" user_prompt]) in
    build_full_context str_object w1 = (Return full_context, w1)
    ∧ generate_gemini_response str_object models generate_content
        full_context (temperature (session w)) (current_mode (session w)) w1
      = (Return reply, w2)
    ∧ on_chat_input str_object models generate_content (Some user_prompt) w
      = (Rerun, with_history w2 (log ++ [MkTurn "user" user_prompt; MkTurn "ai" reply])).
Proof.
  intros Hlog Hprompt.
  set (s1 := SessionState (log_value (log ++ [MkTurn "user" user_prompt]))
               (current_mode (session w)) (temperature (session w))
               (tone (session w)) (user_id (session w))).
  set (w1 := with_session w s1).
  pose proof (build_full_context_log str_object w1 (log ++ [MkTurn "user" user_prompt])
                eq_refl) as Hbuild.
  destruct (generate_gemini_response_returns
              (system_prompt str_object (tone (session w1))
               +:+ Str.concat (turn_line <$> last_turns 10 (log ++ [MkTurn "user" user_prompt]))
               +:+ "AI:")
              (temperature (session w)) (current_mode (session w)) w1)
    as (reply & w2 & Hgen & Hsession & _).
  eexists _, reply, w2. cbv zeta.
  split; [exact Hbuild|]. split; [exact Hgen|].
  unfold on_chat_input. rewrite (nonempty_true _ Hprompt).
  rewrite (bind_return _ _ _ _ _ (append_to_history_log w log "user" user_prompt Hlog)).
  fold s1. fold w1.
  rewrite (bind_return _ _ _ _ _ Hbuild).
  rewrite (bind_return get_session _ w1 w1 s1 eq_refl).
  cbn [temperature current_mode s1].
  rewrite (bind_return _ _ _ _ _ Hgen).
  assert (story_history (session w2) = log_value (log ++ [MkTurn "user" user_prompt])) as Hlog2
    by now rewrite Hsession.
  rewrite (bind_return _ _ _ _ _
             (append_to_history_log w2 (log ++ [MkTurn "user" user_prompt]) "ai" reply Hlog2)).
  rewrite Hsession. cbn [session with_session w1 s1 current_mode temperature tone user_id].
  rewrite <- app_assoc. reflexivity.
Qed.

End GenerationProperties.

(** ** Export and import *)

Section TranscriptProperties.

Variable json_dumps : pyval → exn + string.
Variable json_loads : string → exn + pyval.

Variable str_object : pyval → string.

(** What [apply_imported_data] does with a dict that has both keys and whose
    settings are a dict: each field of the settings that is there is taken,
    and each that is not keeps the value of the session. *)
Lemma apply_imported_dict (w : world) (fields settings : list (string * pyval))
    (history : pyval) :
  assoc "history" fields = Some history →
  assoc "settings" fields = Some (PDict settings) →
  apply_imported_data (PDict fields) w
  = (Return tt,
     with_notices
       (with_session w
          (SessionState history
             (default (current_mode (session w)) (assoc "current_mode" settings))
             (default (temperature (session w)) (assoc "temperature" settings))
             (default (tone (session w)) (assoc "tone" settings))
             (user_id (session w))))
       [Notice Success "Story and settings imported successfully!"]).
Proof.
  intros Hh Hs. unfold apply_imported_data, py_in, py_getitem, py_get.
  rewrite Hh, Hs. run. cbn.
  destruct (assoc "current_mode" settings), (assoc "temperature" settings),
    (assoc "tone" settings); reflexivity.
Qed.

(** The import of a file whose text parses to the document [doc]. *)
Lemma import_form_parsed (w : world) (file text : string) (doc : pyval) :
  json_loads text = inr doc →
  import_form json_loads true (Some (UploadedFile file (inr text))) w
  = try_except (apply_imported_data doc;; st_rerun) on_import_error w.
Proof.
  intros Hdoc. unfold import_form. cbn [file_decoded].
  unfold try_except, mbind, M_bind, lift, of_sum. now rewrite Hdoc.
Qed.

Lemma import_form_dict (w : world) (file text : string)
    (fields settings : list (string * pyval)) (history : pyval) :
  json_loads text = inr (PDict fields) →
  assoc "history" fields = Some history →
  assoc "settings" fields = Some (PDict settings) →
  import_form json_loads true (Some (UploadedFile file (inr text))) w
  = (Rerun,
     with_notices
       (with_session w
          (SessionState history
             (default (current_mode (session w)) (assoc "current_mode" settings))
             (default (temperature (session w)) (assoc "temperature" settings))
             (default (tone (session w)) (assoc "tone" settings))
             (user_id (session w))))
       [Notice Success "Story and settings imported successfully!"]).
Proof.
  intros Hdoc Hh Hs. rewrite (import_form_parsed w file text _ Hdoc).
  unfold try_except, mbind, M_bind.
  now rewrite (apply_imported_dict w fields settings history Hh Hs).
Qed.

(** C2.  A session with a history that is not empty is offered for download
    as the text [json.dumps] makes of [export_data]; when [json.loads] reads
    that text back as the same document, importing it into any session
    succeeds and leaves there exactly the history, the mode, the temperature
    and the tone of the exported session.  The identifier of the exporting
    session is in the document and is not read: the importing session keeps
    its own. *)
Theorem export_import_round_trip (exporter importer : world) (text file : string) :
  truthy (story_history (session exporter)) = true →
  json_dumps (export_data (session exporter)) = inr text →
  json_loads text = inr (export_data (session exporter)) →
  export_column json_dumps exporter
  = (Return (DownloadButton "Export Story (JSON)" text
               ("dungeon_gpt_story_" +:+ String.substring 0 8 (user_id (session exporter))
                +:+ ".json")
               "application/json"),
     exporter)
  ∧ import_form json_loads true (Some (UploadedFile file (inr text))) importer
    = (Rerun,
       with_notices
         (with_session importer
            (SessionState (story_history (session exporter)) (current_mode (session exporter))
                          (temperature (session exporter)) (tone (session exporter))
                          (user_id (session importer))))
         [Notice Success "Story and settings imported successfully!"]).
Proof.
  intros Htruthy Hdumps Hloads. split.
  - unfold export_column. run. now rewrite Htruthy, Hdumps.
  - exact (import_form_dict importer file text _ _ _ Hloads eq_refl eq_refl).
Qed.

(** C5.  A document with both keys at the top and a settings object: the
    import succeeds, the history is the one of the document, and each of the
    three settings is the value the settings object has for it or, when the
    object has none, the value the importing session has at that moment. *)
Theorem import_partial_settings (w : world) (file text : string)
    (fields settings : list (string * pyval)) (history : pyval) :
  json_loads text = inr (PDict fields) →
  assoc "history" fields = Some history →
  assoc "settings" fields = Some (PDict settings) →
  import_form json_loads true (Some (UploadedFile file (inr text))) w
  = (Rerun,
     with_notices
       (with_session w
          (SessionState history
             (default (current_mode (session w)) (assoc "current_mode" settings))
             (default (temperature (session w)) (assoc "temperature" settings))
             (default (tone (session w)) (assoc "tone" settings))
             (user_id (session w))))
       [Notice Success "Story and settings imported successfully!"]).
Proof. exact (import_form_dict w file text fields settings history). Qed.

(** A document that lacks one of the two keys. *)
Lemma apply_imported_data_malformed (w : world) (fields : list (string * pyval)) :
  assoc "history" fields = None ∨ assoc "settings" fields = None →
  apply_imported_data (PDict fields) w
  = (Return tt,
     with_notices w
       [Notice Error
          "Invalid JSON format. Please upload a file with 'history' and 'settings' keys."]).
Proof.
  intros Hmissing. unfold apply_imported_data, py_in. run.
  destruct (assoc "history" fields) as [h|]; cbn.
  - destruct Hmissing as [Hh | Hs]; [discriminate|]. rewrite Hs. reflexivity.
  - reflexivity.
Qed.

(** C6, as amended.  For a file whose text parses to a JSON object, the
    import ends with the notice of an invalid format exactly when the object
    lacks the key [history] or the key [settings] (as [{"foo": 1}] does); for
    a text that [json.loads] rejects with [JSONDecodeError], it ends with the
    notice of an invalid file, a different one.  In both cases the world is
    the one before with that notice added: the history and the settings of
    the session are as they were.  Any other exception raised while the
    document is applied goes to a third handler, which shows its text after
    [Error importing story:]. *)
Theorem import_failures (w : world) (file text : string) :
  (∀ fields : list (string * pyval),
     json_loads text = inr (PDict fields) →
     (assoc "history" fields = None ∨ assoc "settings" fields = None)
     ↔ import_form json_loads true (Some (UploadedFile file (inr text))) w
       = (Rerun,
          with_notices w
            [Notice Error
               "Invalid JSON format. Please upload a file with 'history' and 'settings' keys."]))
  ∧ (∀ msg : string,
       json_loads text = inl (Exn JSONDecodeError msg) →
       import_form json_loads true (Some (UploadedFile file (inr text))) w
       = (Return tt,
          with_notices w [Notice Error "Invalid JSON file. Please upload a valid JSON file."]))
  ∧ (∀ (doc : pyval) (e : exn) (w' : world),
       json_loads text = inr doc →
       apply_imported_data doc w = (Raise e, w') →
       exn_class_of e ≠ JSONDecodeError →
       import_form json_loads true (Some (UploadedFile file (inr text))) w
       = (Return tt,
          with_notices w' [Notice Error ("Error importing story: " +:+ exn_str e)])).
Proof.
  split; [|split].
  - intros fields Hdoc. split.
    + intros Hmissing. rewrite (import_form_parsed w file text _ Hdoc).
      unfold try_except, mbind, M_bind.
      now rewrite (apply_imported_data_malformed w fields Hmissing).
    + intros Himport.
      destruct (assoc "history" fields) as [history|] eqn:Hh; [|now left].
      destruct (assoc "settings" fields) as [settings|] eqn:Hs; [|now right].
      exfalso. rewrite (import_form_parsed w file text _ Hdoc) in Himport.
      destruct settings;
        try (unfold try_except, mbind, M_bind, apply_imported_data, py_in, py_getitem in Himport;
             rewrite Hh, Hs in Himport; cbn in Himport; discriminate).
      rewrite <- (import_form_parsed w file text _ Hdoc) in Himport.
      rewrite (import_form_dict w file text fields _ history Hdoc Hh Hs) in Himport.
      injection Himport as _ Hnotices.
      apply app_inv_head in Hnotices. discriminate.
  - intros msg Hbad. unfold import_form. cbn [file_decoded].
    unfold try_except, mbind, M_bind, lift, of_sum. rewrite Hbad. reflexivity.
  - intros doc e w' Hdoc Hraise Hclass. rewrite (import_form_parsed w file text _ Hdoc).
    unfold try_except, mbind, M_bind. rewrite Hraise.
    unfold on_import_error. destruct (exn_class_of e); try reflexivity. congruence.
Qed.

(** C4, as amended.  The import does not validate the settings it takes:
    whatever values the settings object of the document has for the mode, the
    temperature and the tone, valid or not, the import succeeds and the
    session holds these values in place of the former ones.  At the next run
    of the script a mode that is not ['censored'] gives the index 1, that of
    ['uncensored'], to the mode selector, and a tone that is none of the six
    options makes the index of the tone selector raise [ValueError]. *)
Theorem settings_are_not_validated (w : world) (file text : string)
    (fields settings : list (string * pyval)) (history mode temp tn : pyval) :
  json_loads text = inr (PDict fields) →
  assoc "history" fields = Some history →
  assoc "settings" fields = Some (PDict settings) →
  assoc "current_mode" settings = Some mode →
  assoc "temperature" settings = Some temp →
  assoc "tone" settings = Some tn →
  let imported := SessionState history mode temp tn (user_id (session w)) in
  import_form json_loads true (Some (UploadedFile file (inr text))) w
  = (Rerun,
     with_notices (with_session w imported)
       [Notice Success "Story and settings imported successfully!"])
  ∧ (eq_str mode "censored" = false → mode_selector_index imported = 1%nat)
  ∧ (index_of tn TONE_OPTIONS = None →
     ∃ e : exn, tone_selector_index str_object imported = Raise e
                ∧ exn_class_of e = ValueError).
Proof.
  intros Hdoc Hh Hs Hmode Htemp Htone imported. split; [|split].
  - rewrite (import_form_dict w file text fields settings history Hdoc Hh Hs).
    now rewrite Hmode, Htemp, Htone.
  - intros Hne. unfold mode_selector_index. cbn [current_mode imported]. now rewrite Hne.
  - intros Hnone. unfold tone_selector_index, py_index. cbn [tone imported].
    rewrite Hnone. eexists; split; reflexivity.
Qed.

End TranscriptProperties.

(** ** Persistence *)

(** The five fields a save writes. *)
Lemma session_data_keys (s : session_state) :
  (session_data s).*1 = ["history"; "current_mode"; "temperature"; "tone"; "timestamp"].
Proof. reflexivity. Qed.

(** A field the data does not name is not among the written fields. *)
Lemma written_fields_other (now : Z) (data : list (string * pyval)) (key : string) :
  key ∉ data.*1 → written_fields now data !! key = None.
Proof.
  intros Hkey. unfold written_fields. apply not_elem_of_list_to_map_1.
  rewrite <- list_fmap_compose.
  replace ((fst ∘ prod_map id (resolve now)) <$> data) with (data.*1); [exact Hkey|].
  apply list_fmap_ext. now intros i [k v].
Qed.

(** The guard of [save_story_to_firestore] and [load_story_from_firestore]
    lets a configured data base and an identifier that is not empty pass. *)
Lemma guard_passes (fs : firestore) (uid : string) :
  uid ≠ "" →
  negb (bool_decide (is_Some (Some fs))) || negb (Str.nonempty uid) = false.
Proof. intros Huid. now rewrite (nonempty_true _ Huid). Qed.

(** C9.  A save with a data base that answers and an identifier that is not
    empty sends one request, a [set] with [merge=True] on the document of the
    session; no [get] is sent.  The data has the sentinel
    [SERVER_TIMESTAMP] as its time stamp, and the stored document has the time
    of the server there.  Every field of the stored document other than
    [history], [current_mode], [temperature], [tone] and [timestamp] is as it
    was, and so is every other document; these five hold the values of the
    session and the time of the server. *)
Theorem save_is_merge_write (w : world) (fs : firestore) :
  db w = Some fs →
  failing fs = None →
  user_id (session w) ≠ "" →
  let path := session_document (user_id (session w)) in
  let old := default ∅ (documents fs !! path) in
  ∃ doc : gmap string pyval,
    save_story_to_firestore w
    = (Return true,
       with_notices
         (with_db w (Firestore (<[path := doc]> (documents fs)) (server_time fs) None
                               (requests fs ++ [ReqSet path (session_data (session w)) true])))
         [Notice Success
            "Current session saved successfully to cloud! You can resume from here."])
    ∧ assoc "timestamp" (session_data (session w)) = Some PServerTimestamp
    ∧ doc !! "timestamp" = Some (PTimestamp (server_time fs))
    ∧ doc !! "history" = Some (resolve (server_time fs) (story_history (session w)))
    ∧ doc !! "current_mode" = Some (resolve (server_time fs) (current_mode (session w)))
    ∧ doc !! "temperature" = Some (resolve (server_time fs) (temperature (session w)))
    ∧ doc !! "tone" = Some (resolve (server_time fs) (tone (session w)))
    ∧ (∀ key : string,
         key ∉ ["history"; "current_mode"; "temperature"; "tone"; "timestamp"] →
         doc !! key = old !! key).
Proof.
  intros Hdb Hok Huid path old.
  exists (written_fields (server_time fs) (session_data (session w)) ∪ old).
  split; [|split; [reflexivity|]].
  - unfold save_story_to_firestore. run. rewrite Hdb.
    rewrite (guard_passes fs _ Huid).
    unfold doc_set. rewrite Hdb. cbn [received failing]. rewrite Hok.
    reflexivity.
  - repeat (split; [apply lookup_union_Some_l; reflexivity|]).
    intros key Hkey. rewrite lookup_union_r; [reflexivity|].
    apply written_fields_other. now rewrite session_data_keys.
Qed.

(** C8, as amended.  With a data base that answers, an identifier that is
    not empty and no document stored for it, the load sends its [get],
    returns [False], shows the information that there is no saved session, and
    leaves the session as it was.  When the data base fails, the load returns
    [False] as well, and shows an error instead: the two cases differ in the
    notice shown, not in the value returned. *)
Theorem load_without_record (w : world) (fs : firestore) :
  db w = Some fs →
  failing fs = None →
  user_id (session w) ≠ "" →
  let path := session_document (user_id (session w)) in
  documents fs !! path = None →
  load_story_from_firestore w
  = (Return false,
     with_notices (with_db w (received fs (ReqGet path)))
       [Notice Info "No saved session found for this user ID."])
  ∧ session (snd (load_story_from_firestore w)) = session w
  ∧ (∀ (broken : firestore) (e : exn),
       failing broken = Some e →
       load_story_from_firestore (with_db w broken)
       = (Return false,
          with_notices (with_db w (received broken (ReqGet path)))
            [Notice Error ("Error loading session: " +:+ exn_str e)])).
Proof.
  intros Hdb Hok Huid path Hnone.
  assert (load_story_from_firestore w
          = (Return false,
             with_notices (with_db w (received fs (ReqGet path)))
               [Notice Info "No saved session found for this user ID."])) as Hload.
  { unfold load_story_from_firestore. run. rewrite Hdb.
    rewrite (guard_passes fs _ Huid).
    unfold doc_get, received. rewrite Hdb. cbn [failing documents]. rewrite Hok.
    fold path. rewrite Hnone. reflexivity. }
  split; [exact Hload | split; [now rewrite Hload|]].
  intros broken e Hbroken.
  unfold load_story_from_firestore. run. cbn [with_db db session].
  rewrite (guard_passes broken _ Huid).
  unfold doc_get, received. cbn [with_db db failing]. rewrite Hbroken. reflexivity.
Qed.

(** No save sends a [get]: whatever the world, the requests a save adds
    are none or the one [set]. *)
Lemma save_sends_no_get (w : world) (fs : firestore) :
  db w = Some fs →
  ∃ (fs' : firestore) (sent : list db_request),
    db (snd (save_story_to_firestore w)) = Some fs'
    ∧ requests fs' = requests fs ++ sent
    ∧ ∀ path : list string, ReqGet path ∉ sent.
Proof.
  intros Hdb. unfold save_story_to_firestore. run. rewrite Hdb.
  cbn [bool_decide decide_rel negb orb]. 
  destruct (Str.nonempty (user_id (session w))) eqn:Huid.
  - cbn. unfold doc_set, received. rewrite Hdb. cbn [failing requests].
    destruct (failing fs) as [e|]; cbn;
      (eexists _, [_]; split; [reflexivity | split; [reflexivity|]]);
      intros path Hin; apply list_elem_of_singleton in Hin; discriminate.
  - cbn. rewrite Hdb. exists fs, []. split; [reflexivity | split; [now rewrite app_nil_r|]].
    intros path Hin. now apply elem_of_nil in Hin.
Qed.

(** ** The properties on concrete runs *)

Import Demo.

(** The prompt of the log of twelve turns has the lines of the turns 3 to
    12: the welcome and the turn [one] are left out. *)
Lemma prompt_of_twelve_turns :
  build_full_context plain_str (world_of session12)
  = (Return
       ("You are an AI Dungeon Master. The story's tone is: Horror"
        +:+ ". Generate the next part of the fantasy story based on the following conversation:"
        +:+ Str.LF +:+ Str.LF
        +:+ Str.concat (turn_line <$> drop 2 twelve_turns) +:+ "AI:"),
     world_of session12).
Proof.
  exact (proj2 (prompt_is_preamble_last_turns_and_cue plain_str (world_of session12)
                  twelve_turns "Horror" eq_refl eq_refl) eq_refl).
Defined.

(** The lines of that prompt, written out. *)
Example lines_of_twelve_turns :
  turn_line <$> drop 2 twelve_turns
  = ["AI: two" +:+ Str.LF; "USER: three" +:+ Str.LF; "AI: four" +:+ Str.LF;
     "USER: five" +:+ Str.LF; "AI: six" +:+ Str.LF; "USER: seven" +:+ Str.LF;
     "AI: eight" +:+ Str.LF; "USER: nine" +:+ Str.LF; "AI: ten" +:+ Str.LF;
     "USER: eleven" +:+ Str.LF].
Proof. reflexivity. Qed.

(** The export of [session0], imported into [session1]. *)
Lemma round_trip_of_session0 :
  export_column RefJson.dumps (world_of session0)
  = (Return (DownloadButton "Export Story (JSON)" exported_text
               "dungeon_gpt_story_0b7e1c52.json" "application/json"),
     world_of session0)
  ∧ import_form RefJson.loads true (Some (UploadedFile "story.json" (inr exported_text)))
      (world_of session1)
    = (Rerun,
       with_notices
         (with_session (world_of session1)
            (SessionState (log_value [welcome]) (PStr "censored") (PFloat (7 # 10))
                          (PStr "Fantasy") (user_id session1)))
         [Notice Success "Story and settings imported successfully!"]).
Proof.
  apply (export_import_round_trip RefJson.dumps RefJson.loads
           (world_of session0) (world_of session1) exported_text "story.json");
    vm_compute; reflexivity.
Defined.

(** A 403 from the service. *)
Lemma permission_denied_reply :
  generate_gemini_response plain_str both_models (failing_service permission_denied)
    "prompt" (PFloat (7 # 10)) (PStr "censored") (world_of session0)
  = (Return
       "AI (Gemini censored) API Error: Permission denied. Check your GOOGLE_API_KEY and its permissions.",
     with_call (world_of session0)
       (GeminiCall (GenerativeModel "gemini-1.5-flash-latest" _DEFAULT_SAFETY_SETTINGS)
                   "prompt" [("temperature", PFloat (7 # 10))]))
  ∧ session (snd (generate_gemini_response plain_str both_models
                    (failing_service permission_denied)
                    "prompt" (PFloat (7 # 10)) (PStr "censored") (world_of session0)))
    = session0.
Proof.
  apply (generate_permission_denied plain_str both_models (failing_service permission_denied)
           "prompt" (PFloat (7 # 10)) (PStr "censored") (world_of session0)
           (GenerativeModel "gemini-1.5-flash-latest" _DEFAULT_SAFETY_SETTINGS)
           permission_denied);
    reflexivity.
Defined.

(** A failure of status 403 that the handler takes for a missing model: its
    text has [403], and [404] and [models/gemini-pro] as well, which are
    looked for first.  And the chat turn that met the failure has the message
    in the history, as the turn of the AI. *)
Lemma permission_denied_taken_for_missing_model :
  Str.contains "403" (exn_str permission_denied_on_gemini_pro) = true
  ∧ fst (generate_gemini_response plain_str both_models
           (failing_service permission_denied_on_gemini_pro)
           "prompt" (PFloat (7 # 10)) (PStr "censored") (world_of session0))
    = Return ("AI (Gemini censored) API Error: Model 'gemini-pro' not found or accessible. "
              +:+ "Ensure Generative Language API is enabled in your Google Cloud Project "
              +:+ "and your GOOGLE_API_KEY is correct and has the necessary permissions.")
  ∧ fst (generate_gemini_response plain_str both_models
           (failing_service permission_denied_on_gemini_pro)
           "prompt" (PFloat (7 # 10)) (PStr "censored") (world_of session0))
    ≠ Return "AI (Gemini censored) API Error: Permission denied. Check your GOOGLE_API_KEY and its permissions."
  ∧ story_history
      (session (snd (on_chat_input plain_str both_models (failing_service permission_denied)
                       (Some "I draw my sword.") (world_of session0))))
    = log_value
        [welcome; MkTurn "user" "I draw my sword.";
         MkTurn "ai" "AI (Gemini censored) API Error: Permission denied. Check your GOOGLE_API_KEY and its permissions."].
Proof. repeat split; try reflexivity. discriminate. Qed.

(** Without a key there is no model, and no call. *)
Lemma not_configured_reply :
  generate_gemini_response plain_str no_models (answering_service "The door opens.")
    "prompt" (PFloat (7 # 10)) (PStr "uncensored") (world_of session0)
  = (Return "Error: Gemini API for 'uncensored' mode is not configured. Check your GOOGLE_API_KEY.",
     world_of session0)
  ∧ gemini_calls (snd (generate_gemini_response plain_str no_models
                         (answering_service "The door opens.")
                         "prompt" (PFloat (7 # 10)) (PStr "uncensored") (world_of session0)))
    = [].
Proof.
  apply (generate_not_configured plain_str no_models (answering_service "The door opens.")
           "prompt" (PFloat (7 # 10)) (PStr "uncensored") (world_of session0)).
  reflexivity.
Defined.

(** The models of a script that found no key. *)
Example models_without_key :
  fst (configure_gemini None None (world_of session0)) = Return no_models.
Proof. reflexivity. Qed.

(** A document whose settings have the temperature only, imported into
    [session1]: the mode stays uncensored and the tone stays Horror. *)
Lemma import_of_partial_settings :
  import_form RefJson.loads true (file_of partial_settings_text) (world_of session1)
  = (Rerun,
     with_notices
       (with_session (world_of session1)
          (SessionState (log_value [MkTurn "ai" "Hello"]) (PStr "uncensored") (PFloat (9 # 10))
                        (PStr "Horror") (user_id session1)))
       [Notice Success "Story and settings imported successfully!"]).
Proof.
  apply (import_partial_settings RefJson.loads (world_of session1) "story.json"
           (RefJson.typed partial_settings_text)
           [("history", log_value [MkTurn "ai" "Hello"]);
            ("settings", PDict [("temperature", PFloat (9 # 10))])]
           [("temperature", PFloat (9 # 10))]
           (log_value [MkTurn "ai" "Hello"]));
    vm_compute; reflexivity.
Defined.

(** Settings that are all invalid, imported into the valid [session0]: the
    import succeeds and the session holds them. *)
Lemma invalid_settings_are_imported :
  import_form RefJson.loads true (file_of invalid_settings_text) (world_of session0)
  = (Rerun,
     with_notices
       (with_session (world_of session0)
          (SessionState (PList []) (PStr "foo") (PFloat (3 # 2)) (PStr "Unknown")
                        (user_id session0)))
       [Notice Success "Story and settings imported successfully!"]).
Proof. vm_compute. reflexivity. Qed.

(** The same import, and what the selectors are given at the next run. *)
Lemma invalid_settings_at_the_selectors :
  let imported :=
    SessionState (PList []) (PStr "foo") (PFloat (3 # 2)) (PStr "Unknown") (user_id session0) in
  import_form RefJson.loads true (file_of invalid_settings_text) (world_of session0)
  = (Rerun,
     with_notices (with_session (world_of session0) imported)
       [Notice Success "Story and settings imported successfully!"])
  ∧ mode_selector_index imported = 1%nat
  ∧ ∃ e : exn, tone_selector_index plain_str imported = Raise e ∧ exn_class_of e = ValueError.
Proof.
  destruct (settings_are_not_validated RefJson.loads plain_str (world_of session0) "story.json"
              (RefJson.typed invalid_settings_text)
              [("history", PList []);
               ("settings", PDict [("current_mode", PStr "foo"); ("temperature", PFloat (3 # 2));
                                   ("tone", PStr "Unknown")])]
              [("current_mode", PStr "foo"); ("temperature", PFloat (3 # 2));
               ("tone", PStr "Unknown")]
              (PList []) (PStr "foo") (PFloat (3 # 2)) (PStr "Unknown")
              ltac:(vm_compute; reflexivity) eq_refl eq_refl eq_refl eq_refl eq_refl)
    as (Himport & Hmode & Htone).
  split; [exact Himport | split; [exact (Hmode eq_refl) | exact (Htone eq_refl)]].
Defined.

(** The document [{"foo": 1}] and a text that is not JSON. *)
Lemma import_of_malformed_files :
  import_form RefJson.loads true (file_of "{'foo': 1}") (world_of session0)
  = (Rerun,
     with_notices (world_of session0)
       [Notice Error
          "Invalid JSON format. Please upload a file with 'history' and 'settings' keys."])
  ∧ import_form RefJson.loads true (file_of "{'history': [") (world_of session0)
    = (Return tt,
       with_notices (world_of session0)
         [Notice Error "Invalid JSON file. Please upload a valid JSON file."]).
Proof.
  split.
  - apply (proj1 (import_failures RefJson.loads (world_of session0) "story.json"
                    (RefJson.typed "{'foo': 1}")) [("foo", PInt 1)]);
      [vm_compute; reflexivity | left; reflexivity].
  - apply (proj1 (proj2 (import_failures RefJson.loads (world_of session0) "story.json"
                           (RefJson.typed "{'history': ["))) "Expecting value").
    vm_compute; reflexivity.
Defined.

(** Two files that are JSON and fail in a third way.  The text [5] has no
    key at all and is not reported as an invalid format.  The second document
    has both keys and fails all the same, on its settings that are no object,
    after its history has replaced the one of the session. *)
Lemma import_fails_in_a_third_way :
  import_form RefJson.loads true (file_of "5") (world_of session0)
  = (Return tt,
     with_notices (world_of session0)
       [Notice Error "Error importing story: argument of type 'int' is not iterable"])
  ∧ import_form RefJson.loads true (file_of "{'history': [], 'settings': 5}") (world_of session0)
    = (Return tt,
       with_notices
         (with_session (world_of session0)
            (SessionState (PList []) (PStr "censored") (PFloat (7 # 10)) (PStr "Fantasy")
                          (user_id session0)))
         [Notice Error "Error importing story: 'int' object has no attribute 'get'"]).
Proof. split; vm_compute; reflexivity. Qed.

(** A save into a data base that holds a document with a bookmark and a
    tone: the tone is replaced, the bookmark stays. *)
Lemma save_keeps_the_bookmark :
  let w := world_with_store session0 store_with_bookmark in
  let path := session_document (user_id session0) in
  ∃ doc : gmap string pyval,
    save_story_to_firestore w
    = (Return true,
       with_notices
         (with_db w (Firestore (<[path := doc]> (documents store_with_bookmark)) 1700000000 None
                               [ReqSet path (session_data session0) true]))
         [Notice Success
            "Current session saved successfully to cloud! You can resume from here."])
    ∧ doc !! "timestamp" = Some (PTimestamp 1700000000)
    ∧ doc !! "history" = Some (log_value [welcome])
    ∧ doc !! "tone" = Some (PStr "Fantasy")
    ∧ doc !! "bookmark" = Some (PInt 3).
Proof.
  destruct (save_is_merge_write (world_with_store session0 store_with_bookmark)
              store_with_bookmark eq_refl eq_refl ltac:(discriminate))
    as (doc & Hsave & _ & Htime & Hhistory & _ & _ & Htone & Hother).
  exists doc. split; [exact Hsave|]. split; [exact Htime|]. split; [exact Hhistory|].
  split; [exact Htone|].
  rewrite Hother.
  - vm_compute; reflexivity.
  - intros H. repeat (apply elem_of_cons in H as [H | H]; [discriminate|]).
    now apply elem_of_nil in H.
Defined.

(** A load for an identifier the data base has nothing for, and a load from
    a data base that is down. *)
Lemma load_of_unknown_session :
  let path := session_document (user_id session0) in
  load_story_from_firestore (world_with_store session0 empty_store)
  = (Return false,
     with_notices (with_db (world_with_store session0 empty_store)
                     (received empty_store (ReqGet path)))
       [Notice Info "No saved session found for this user ID."])
  ∧ session (snd (load_story_from_firestore (world_with_store session0 empty_store))) = session0
  ∧ load_story_from_firestore (world_with_store session0 broken_store)
    = (Return false,
       with_notices (with_db (world_with_store session0 empty_store)
                       (received broken_store (ReqGet path)))
         [Notice Error "Error loading session: 503 The service is currently unavailable."]).
Proof.
  destruct (load_without_record (world_with_store session0 empty_store) empty_store
              eq_refl eq_refl ltac:(discriminate) eq_refl)
    as (Hload & Hsession & Hbroken).
  split; [exact Hload | split; [exact Hsession|]].
  exact (Hbroken broken_store _ eq_refl).
Defined.

(** The value the load returns is the same with no document and with a data
    base that is down. *)
Lemma load_returns_false_in_both_cases :
  fst (load_story_from_firestore (world_with_store session0 empty_store)) = Return false
  ∧ fst (load_story_from_firestore (world_with_store session0 broken_store)) = Return false.
Proof. split; reflexivity. Qed.

(** A chat turn with a service that is denied. *)
Lemma chat_turn_with_denied_service :
  ∃ (full_context reply : string) (w2 : world),
    let with_history (w0 : world) (turns : list Turn) :=
      with_session w0
        (SessionState (log_value turns) (PStr "censored") (PFloat (7 # 10)) (PStr "Fantasy")
                      (user_id session0)) in
    let w1 := with_history (world_of session0) [welcome; MkTurn "user" "I draw my sword."] in
    build_full_context plain_str w1 = (Return full_context, w1)
    ∧ generate_gemini_response plain_str both_models (failing_service permission_denied)
        full_context (PFloat (7 # 10)) (PStr "censored") w1
      = (Return reply, w2)
    ∧ on_chat_input plain_str both_models (failing_service permission_denied)
        (Some "I draw my sword.") (world_of session0)
      = (Rerun,
         with_history w2 [welcome; MkTurn "user" "I draw my sword."; MkTurn "ai" reply]).
Proof.
  apply (chat_turn_appends_user_then_ai plain_str both_models (failing_service permission_denied)
           (world_of session0) [welcome] "I draw my sword." eq_refl).
  discriminate.
Defined.

(** * Further properties *)

(** ** Generation *)

Lemma with_notices_nil (w : world) : with_notices w [] = w.
Proof. destruct w. unfold with_notices. cbn. now rewrite app_nil_r. Qed.

(** The handler returns its message and changes nothing but the notices. *)
Lemma on_gemini_error_shows (str_object : pyval → string) (mode : pyval) (e : exn)
    (w : world) :
  ∃ (reply : string) (shown : list notice),
    on_gemini_error str_object mode e w = (Return reply, with_notices w shown).
Proof.
  unfold on_gemini_error.
  destruct (Str.contains "404" (exn_str e) && Str.contains "models/gemini-pro" (exn_str e));
    [|destruct (Str.contains "403" (exn_str e)); [|destruct (Str.contains "500" (exn_str e))]];
    run;
    first [ now eexists _, [_]
          | eexists _, []; now rewrite with_notices_nil ].
Qed.

(** Whatever the service does, [generate_gemini_response] returns a string
    and raises nothing.  It calls the service once when the mode has a model
    instance, with that instance, the prompt as given and the temperature as
    the one entry of the generation configuration, and not at all when the
    mode has none; it never calls twice.  The session and the data base are
    as they were. *)
Theorem generate_calls_the_service_at_most_once (str_object : pyval → string)
    (models : gemini_models)
    (generate_content : generative_model → string → list (string * pyval) → provider_outcome)
    (prompt : string) (temp mode : pyval) (w : world) :
  ∃ (reply : string) (shown : list notice),
    generate_gemini_response str_object models generate_content prompt temp mode w
    = (Return reply,
       World (session w) (notices w ++ shown)
             (gemini_calls w
              ++ match selected_model models mode with
                 | Some m => [GeminiCall m prompt [("temperature", temp)]]
                 | None => []
                 end)
             (db w)).
Proof.
  unfold generate_gemini_response.
  destruct (selected_model models mode) as [m|].
  - unfold try_except, call_generate_content, mbind, M_bind. cbv zeta beta.
    set (w1 := with_call w (GeminiCall m prompt [("temperature", temp)])).
    assert (∀ e, ∃ reply shown,
               on_gemini_error str_object mode e w1
               = (Return reply,
                  World (session w) (notices w ++ shown)
                        (gemini_calls w ++ [GeminiCall m prompt [("temperature", temp)]])
                        (db w))) as Hhandler.
    { intros e. destruct (on_gemini_error_shows str_object mode e w1) as (reply & shown & ->).
      now exists reply, shown. }
    destruct (generate_content m prompt [("temperature", temp)]) as [e | r]; cbv beta iota.
    + apply Hhandler.
    + destruct (read_response_frame r w1) as [[e | reply] ->]; cbn [of_sum].
      * apply Hhandler.
      * exists reply, []. unfold w1, with_call. cbn. now rewrite app_nil_r.
  - eexists _, []. rewrite !app_nil_r. destruct w; reflexivity.
Qed.

(** What is made of a response of the service.  A text that is not empty is
    the reply.  Without a text (the attribute is missing, or the text is
    empty), a prompt feedback that is set gives the message of a blocked
    response with the name of the block reason; a prompt feedback that is
    missing or not set gives the message of an empty response. *)
Theorem generate_classifies_the_response (str_object : pyval → string)
    (models : gemini_models)
    (generate_content : generative_model → string → list (string * pyval) → provider_outcome)
    (prompt : string) (temp mode : pyval) (w : world) (m : generative_model) (r : response) :
  selected_model models mode = Some m →
  generate_content m prompt [("temperature", temp)] = CallReturns (Some r) →
  let w1 := with_call w (GeminiCall m prompt [("temperature", temp)]) in
  let no_text := response_text r = NoAttribute ∨ response_text r = Attr "" in
  (∀ text : string,
     response_text r = Attr text → text ≠ "" →
     generate_gemini_response str_object models generate_content prompt temp mode w
     = (Return text, w1))
  ∧ (∀ reason : string,
       no_text →
       response_prompt_feedback r = Attr (PromptFeedback true (inr reason)) →
       generate_gemini_response str_object models generate_content prompt temp mode w
       = (Return ("AI response was blocked by safety settings. Reason: " +:+ reason), w1))
  ∧ (∀ name : exn + string,
       no_text →
       response_prompt_feedback r = NoAttribute
       ∨ response_prompt_feedback r = Attr (PromptFeedback false name) →
       generate_gemini_response str_object models generate_content prompt temp mode w
       = (Return "AI returned an empty or unreadable response.", w1)).
Proof.
  intros Hm Hcall w1 no_text.
  assert (generate_gemini_response str_object models generate_content prompt temp mode w
          = try_except (read_response (Some r)) (on_gemini_error str_object mode) w1) as ->.
  { unfold generate_gemini_response. rewrite Hm.
    unfold try_except, call_generate_content, mbind, M_bind. cbv zeta beta.
    now rewrite Hcall. }
  destruct r as [text feedback]. cbn [response_text response_prompt_feedback] in *.
  unfold no_text. split; [|split].
  - intros t -> Ht. unfold read_response. run. cbn.
    now rewrite (nonempty_true _ Ht).
  - intros reason [-> | ->] ->; reflexivity.
  - intros name [-> | ->] [-> | ->]; reflexivity.
Qed.

(** What is made of an exception of the service, by the text of the
    exception.  [404] together with [models/gemini-pro] gives the message of
    a missing model, whatever else the text has; otherwise [500] without
    [403] gives the message of a server error; a text with none of [403],
    [500] and that pair gives the message with the text itself, which is
    shown as an error as well. *)
Theorem generate_classifies_the_failure (str_object : pyval → string)
    (models : gemini_models)
    (generate_content : generative_model → string → list (string * pyval) → provider_outcome)
    (prompt : string) (temp mode : pyval) (w : world) (m : generative_model) (e : exn) :
  selected_model models mode = Some m →
  generate_content m prompt [("temperature", temp)] = CallFails e →
  let w1 := with_call w (GeminiCall m prompt [("temperature", temp)]) in
  let pair := Str.contains "404" (exn_str e) && Str.contains "models/gemini-pro" (exn_str e) in
  (pair = true →
   generate_gemini_response str_object models generate_content prompt temp mode w
   = (Return ("AI (Gemini " +:+ py_str str_object mode
              +:+ ") API Error: Model 'gemini-pro' not found or accessible. "
              +:+ "Ensure Generative Language API is enabled in your Google Cloud Project "
              +:+ "and your GOOGLE_API_KEY is correct and has the necessary permissions."),
      w1))
  ∧ (pair = false → Str.contains "403" (exn_str e) = false →
     Str.contains "500" (exn_str e) = true →
     generate_gemini_response str_object models generate_content prompt temp mode w
     = (Return ("AI (Gemini " +:+ py_str str_object mode
                +:+ ") API Error: Internal server error. Please try again later."),
        w1))
  ∧ (pair = false → Str.contains "403" (exn_str e) = false →
     Str.contains "500" (exn_str e) = false →
     generate_gemini_response str_object models generate_content prompt temp mode w
     = (Return ("AI (Gemini " +:+ py_str str_object mode +:+ ") encountered an error: "
                +:+ exn_str e),
        with_notices w1
          [Notice Error ("Error calling Gemini API for '" +:+ py_str str_object mode
                         +:+ "' mode: " +:+ exn_str e)])).
Proof.
  intros Hm Hcall w1 pair.
  assert (generate_gemini_response str_object models generate_content prompt temp mode w
          = on_gemini_error str_object mode e w1) as ->.
  { unfold generate_gemini_response. rewrite Hm.
    unfold try_except, call_generate_content, mbind, M_bind. cbv zeta beta.
    now rewrite Hcall. }
  unfold on_gemini_error. fold pair.
  split; [|split].
  - now intros ->.
  - now intros -> -> ->.
  - now intros -> -> ->.
Qed.


(** The configuration gives the two model instances or none.  With a key
    that is not empty and an SDK that raises nothing, the censored mode has
    the instance with the thresholds [BLOCK_MEDIUM_AND_ABOVE] and the
    uncensored mode the one with [BLOCK_NONE], of the same model; in every
    other case no mode has an instance.  The session is as it was. *)
Theorem configure_gemini_both_or_none (GOOGLE_API_KEY : option string) (sdk_error : option exn)
    (w : world) :
  ∃ (models : gemini_models) (w' : world),
    configure_gemini GOOGLE_API_KEY sdk_error w = (Return models, w')
    ∧ session w' = session w
    ∧ ((from_option Str.nonempty false GOOGLE_API_KEY = true ∧ sdk_error = None
        ∧ selected_model models (PStr "censored")
          = Some (GenerativeModel "gemini-1.5-flash-latest" _DEFAULT_SAFETY_SETTINGS)
        ∧ selected_model models (PStr "uncensored")
          = Some (GenerativeModel "gemini-1.5-flash-latest" _UNCENSORED_SAFETY_SETTINGS))
       ∨ ((from_option Str.nonempty false GOOGLE_API_KEY = false ∨ sdk_error ≠ None)
          ∧ ∀ mode : pyval, selected_model models mode = None)).
Proof.
  unfold configure_gemini.
  destruct (from_option Str.nonempty false GOOGLE_API_KEY); [destruct sdk_error as [e|]|];
    run; eexists _, _; (split; [reflexivity|]); (split; [reflexivity|]).
  - right. split; [now right|]. intros mode. unfold selected_model. cbn.
    now destruct (eq_str mode "censored"), (eq_str mode "uncensored").
  - left. repeat split; reflexivity.
  - right. split; [now left|]. intros mode. unfold selected_model. cbn.
    now destruct (eq_str mode "censored"), (eq_str mode "uncensored").
Qed.

(** ** The prompt, the welcome and a new story *)

Lemma concat_app (l1 l2 : list string) :
  Str.concat (l1 ++ l2) = Str.concat l1 +:+ Str.concat l2.
Proof.
  induction l1 as [|x l1 IH]; [reflexivity|].
  cbn [app Str.concat]. now rewrite IH, string_app_assoc.
Qed.

Lemma last_turns_snoc (log : list Turn) (t : Turn) :
  last_turns 10 (log ++ [t]) = last_turns 9 log ++ [t].
Proof.
  unfold last_turns. rewrite length_app. cbn [length].
  destruct (Nat.leb_spec (length log) 9) as [Hle | Hgt].
  - now replace (length log + 1 <=? 10)%nat with true by (symmetry; apply Nat.leb_le; lia).
  - replace (length log + 1 <=? 10)%nat with false by (symmetry; apply Nat.leb_gt; lia).
    replace (length log + 1 - 10)%nat with (length log - 9)%nat by lia.
    apply drop_app_le. lia.
Qed.

Lemma last_turns_of_recent (older recent : list Turn) :
  length recent = 10%nat → last_turns 10 (older ++ recent) = recent.
Proof.
  intros Hrecent. unfold last_turns. rewrite length_app, Hrecent.
  destruct (Nat.leb_spec (length older + 10) 10) as [Hle | Hgt].
  - destruct older; [reflexivity | cbn in Hle; lia].
  - replace (length older + 10 - 10)%nat with (length older) by lia.
    apply drop_app_length.
Qed.

(** The prompt of a history that ends with a turn of the user ends with the
    line of that turn and the cue: the message just typed is always sent,
    last, whatever the length of the log. *)
Theorem prompt_ends_with_the_new_turn (str_object : pyval → string) (w : world)
    (log : list Turn) (user_prompt : string) :
  story_history (session w) = log_value (log ++ [MkTurn "user" user_prompt]) →
  ∃ before : string,
    build_full_context str_object w
    = (Return (before +:+ "USER: " +:+ user_prompt +:+ Str.LF +:+ "AI:"), w).
Proof.
  intros Hlog.
  exists (system_prompt str_object (tone (session w))
          +:+ Str.concat (turn_line <$> last_turns 9 log)).
  rewrite (build_full_context_log str_object w _ Hlog).
  rewrite last_turns_snoc, fmap_app, concat_app.
  cbn [fmap list_fmap Str.concat]. unfold turn_line at 2. cbn [turn_sender turn_text].
  rewrite string_app_nil_r, !string_app_assoc. reflexivity.
Qed.

(** The prompt depends on the last ten turns only: a log with older turns
    before ten turns gives the prompt of these ten alone, for the same tone. *)
Theorem prompt_ignores_older_turns (str_object : pyval → string) (w1 w2 : world)
    (older recent : list Turn) :
  length recent = 10%nat →
  story_history (session w1) = log_value (older ++ recent) →
  story_history (session w2) = log_value recent →
  tone (session w1) = tone (session w2) →
  fst (build_full_context str_object w1) = fst (build_full_context str_object w2).
Proof.
  intros Hrecent H1 H2 Htone.
  rewrite (build_full_context_log str_object w1 _ H1).
  rewrite (build_full_context_log str_object w2 _ H2).
  rewrite (last_turns_of_recent older recent Hrecent).
  rewrite (last_turns_of_recent [] recent Hrecent : last_turns 10 recent = recent).
  now rewrite Htone.
Qed.


(** When the end of the script is reached without a rerun, the history is
    not empty and nothing was changed there. *)
Theorem run_ends_with_a_history (w w' : world) :
  seed_welcome w = (Return tt, w') →
  w' = w ∧ truthy (story_history (session w)) = true.
Proof.
  unfold seed_welcome. run.
  destruct (truthy (story_history (session w))) eqn:Htruthy.
  - intros [= <-]. now split.
  - unfold append_to_history. run.
    destruct (py_append (story_history (session w)) _); discriminate.
Qed.

(** ** Export and import *)

(** The export column outside its normal case.  A history that is false (an
    empty list) gives the disabled button, and [json.dumps] is not called.
    With a history, an exception of [json.dumps] (a session value that JSON
    cannot write) is not caught: it leaves the column, and ends the run. *)
Theorem export_without_history_or_serialization (json_dumps : pyval → exn + string)
    (w : world) :
  (truthy (story_history (session w)) = false →
   export_column json_dumps w = (Return (DisabledButton "Export Story (JSON)"), w))
  ∧ (∀ e : exn,
       truthy (story_history (session w)) = true →
       json_dumps (export_data (session w)) = inl e →
       export_column json_dumps w = (Raise e, w)).
Proof.
  split.
  - intros Hfalse. unfold export_column. run. now rewrite Hfalse.
  - intros e Htrue Hdumps. unfold export_column. run. now rewrite Htrue, Hdumps.
Qed.

(** The handlers of the import show one error and return. *)
Lemma on_import_error_shows (e : exn) (w : world) :
  ∃ msg : string, on_import_error e w = (Return tt, with_notices w [Notice Error msg]).
Proof. unfold on_import_error. destruct (exn_class_of e); eexists; reflexivity. Qed.

(** Applying a parsed document returns or raises; it changes the session,
    the identifier apart, and the notices, and nothing else. *)
Lemma apply_imported_data_outcome (doc : pyval) (w : world) :
  ∃ (r : exn + unit) (s : session_state) (shown : list notice),
    apply_imported_data doc w
    = (of_sum r, World s (notices w ++ shown) (gemini_calls w) (db w))
    ∧ user_id s = user_id (session w).
Proof.
  assert (∀ e : exn, ∃ (r : exn + unit) (s : session_state) (shown : list notice),
             (@Raise unit e, w)
             = (of_sum r, World s (notices w ++ shown) (gemini_calls w) (db w))
             ∧ user_id s = user_id (session w)) as Hraise.
  { intros e. exists (inl e), (session w), []. rewrite app_nil_r. now destruct w. }
  assert (∀ (s : session_state) (shown : list notice),
             user_id s = user_id (session w) →
             ∃ (r : exn + unit) (s' : session_state) (shown' : list notice),
               (Return tt, World s (notices w ++ shown) (gemini_calls w) (db w))
               = (of_sum r, World s' (notices w ++ shown') (gemini_calls w) (db w))
               ∧ user_id s' = user_id (session w)) as Hreturn.
  { intros s shown Hs. now exists (inr tt), s, shown. }
  assert (∀ (s : session_state) (e : exn),
             user_id s = user_id (session w) →
             ∃ (r : exn + unit) (s' : session_state) (shown' : list notice),
               (@Raise unit e, World s (notices w) (gemini_calls w) (db w))
               = (of_sum r, World s' (notices w ++ shown') (gemini_calls w) (db w))
               ∧ user_id s' = user_id (session w)) as Hpartial.
  { intros s e Hs. exists (inl e), s, []. now rewrite app_nil_r. }
  destruct doc as [| b | n | q | text | items | fields | | t];
    try (apply Hraise).
  - (* a string *)
    unfold apply_imported_data, py_in. run.
    destruct (Str.contains "history" text); cbn; [destruct (Str.contains "settings" text); cbn|];
      first [apply Hraise | apply (Hreturn (session w)); reflexivity].
  - (* a list *)
    unfold apply_imported_data, py_in. run.
    destruct (existsb _ items); cbn; [destruct (existsb _ items); cbn|];
      first [apply Hraise | apply (Hreturn (session w)); reflexivity].
  - (* a dict *)
    destruct (assoc "history" fields) as [history|] eqn:Hh;
      [destruct (assoc "settings" fields) as [settings|] eqn:Hs|].
    + destruct settings;
        try (unfold apply_imported_data, py_in, py_getitem; rewrite Hh, Hs; run; cbn;
             apply Hpartial; reflexivity).
      rewrite (apply_imported_dict w fields _ history Hh Hs).
      apply Hreturn. reflexivity.
    + rewrite (apply_imported_data_malformed w fields (or_intror Hs)).
      apply (Hreturn (session w)). reflexivity.
    + rewrite (apply_imported_data_malformed w fields (or_introl Hh)).
      apply (Hreturn (session w)). reflexivity.
Qed.

(** No exception leaves the import form, whatever the file and whatever
    [json.loads] does with it: the form returns or asks for a rerun.  It may
    change the history, the settings and the notices; the identifier of the
    session, the data base and the calls of the service are as they were. *)
Theorem import_form_raises_nothing (json_loads : string → exn + pyval) (submit_button : bool)
    (uploaded : option uploaded_file) (w : world) :
  ∃ (s : session_state) (shown : list notice),
    let w' := World s (notices w ++ shown) (gemini_calls w) (db w) in
    (import_form json_loads submit_button uploaded w = (Return tt, w')
     ∨ import_form json_loads submit_button uploaded w = (Rerun, w'))
    ∧ user_id s = user_id (session w).
Proof.
  assert (∀ e : exn, ∃ (s : session_state) (shown : list notice),
             (on_import_error e w = (Return tt, World s (notices w ++ shown) (gemini_calls w) (db w))
              ∨ on_import_error e w = (Rerun, World s (notices w ++ shown) (gemini_calls w) (db w)))
             ∧ user_id s = user_id (session w)) as Hhandler.
  { intros e. destruct (on_import_error_shows e w) as [msg ->].
    exists (session w), [Notice Error msg]. split; [now left | reflexivity]. }
  assert (∃ (s : session_state) (shown : list notice),
             ((Return tt, w) = (Return tt, World s (notices w ++ shown) (gemini_calls w) (db w))
              ∨ (Return tt, w) = (Rerun, World s (notices w ++ shown) (gemini_calls w) (db w)))
             ∧ user_id s = user_id (session w)) as Hnothing.
  { exists (session w), []. rewrite app_nil_r. split; [left; now destruct w | reflexivity]. }
  cbv zeta. unfold import_form.
  destruct uploaded as [[name [e | text]]|]; [| |exact Hnothing];
    (destruct submit_button; [|exact Hnothing]); cbn [file_decoded].
  - unfold try_except, mbind, M_bind, lift, of_sum. apply Hhandler.
  - unfold try_except, mbind, M_bind, lift, of_sum.
    destruct (json_loads text) as [e | doc]; [apply Hhandler|].
    destruct (apply_imported_data_outcome doc w) as ([e | []] & s & shown & -> & Hs);
      cbn [of_sum].
    + destruct (on_import_error_shows e (World s (notices w ++ shown) (gemini_calls w) (db w)))
        as [msg ->].
      exists s, (shown ++ [Notice Error msg]). split; [|exact Hs].
      left. unfold with_notices. cbn. now rewrite app_assoc.
    + exists s, shown. split; [now right | exact Hs].
Qed.

(** A document that has both keys and whose settings are no object.  The
    import fails on the settings, with the error of the missing attribute
    [get] shown; by then the history of the document has replaced the one of
    the session, and it stays: the mode, the temperature and the tone are the
    former ones, and no rerun is asked for. *)
Theorem import_with_settings_that_are_no_object (json_loads : string → exn + pyval)
    (w : world) (file text : string) (fields : list (string * pyval))
    (history settings : pyval) :
  json_loads text = inr (PDict fields) →
  assoc "history" fields = Some history →
  assoc "settings" fields = Some settings →
  (∀ items : list (string * pyval), settings ≠ PDict items) →
  import_form json_loads true (Some (UploadedFile file (inr text))) w
  = (Return tt,
     with_notices
       (with_session w
          (SessionState history (current_mode (session w)) (temperature (session w))
                        (tone (session w)) (user_id (session w))))
       [Notice Error ("Error importing story: "
                      +:+ quoted (type_name settings) +:+ " object has no attribute 'get'")]).
Proof.
  intros Hdoc Hh Hs Hnodict. rewrite (import_form_parsed json_loads w file text _ Hdoc).
  destruct settings as [| | | | | | items | |]; try (now destruct (Hnodict items));
    unfold try_except, mbind, M_bind, apply_imported_data, py_in, py_getitem;
    rewrite Hh, Hs; reflexivity.
Qed.

(** The import form without a file that can be read.  Nothing happens
    without a file or without the button; a file that is not UTF-8 is
    reported by the general handler with the text of the decoding error, and
    [json.loads] is not called.  The session is as it was, and no rerun is
    asked for. *)
Theorem import_without_a_readable_file (json_loads : string → exn + pyval) (w : world) :
  import_form json_loads true None w = (Return tt, w)
  ∧ (∀ uploaded : option uploaded_file,
       import_form json_loads false uploaded w = (Return tt, w))
  ∧ (∀ (file : string) (e : exn),
       exn_class_of e = UnicodeDecodeError →
       import_form json_loads true (Some (UploadedFile file (inl e))) w
       = (Return tt, with_notices w [Notice Error ("Error importing story: " +:+ exn_str e)])).
Proof.
  split; [reflexivity | split].
  - now intros [f|].
  - intros file e Hclass. unfold import_form. cbn [file_decoded].
    unfold try_except, mbind, M_bind, lift, of_sum, on_import_error. now rewrite Hclass.
Qed.

(** ** Persistence *)

(** A save with a data base that answers: what is sent, stored and shown. *)
Lemma save_story_succeeds (w : world) (fs : firestore) :
  db w = Some fs →
  failing fs = None →
  user_id (session w) ≠ "" →
  let path := session_document (user_id (session w)) in
  save_story_to_firestore w
  = (Return true,
     with_notices
       (with_db w
          (Firestore
             (<[path := written_fields (server_time fs) (session_data (session w))
                        ∪ default ∅ (documents fs !! path)]> (documents fs))
             (server_time fs) None
             (requests fs ++ [ReqSet path (session_data (session w)) true])))
       [Notice Success "Current session saved successfully to cloud! You can resume from here."]).
Proof.
  intros Hdb Hok Huid path.
  unfold save_story_to_firestore. run. rewrite Hdb.
  rewrite (guard_passes fs _ Huid).
  unfold doc_set. rewrite Hdb. cbn [received failing]. rewrite Hok.
  reflexivity.
Qed.

(** A load that finds a document: each field of the session is the one of
    the document, or the default of the script when the document has none. *)
Lemma load_story_found (w : world) (fs : firestore) (data : gmap string pyval) :
  db w = Some fs →
  failing fs = None →
  user_id (session w) ≠ "" →
  let path := session_document (user_id (session w)) in
  documents fs !! path = Some data →
  load_story_from_firestore w
  = (Return true,
     with_notices
       (with_session (with_db w (received fs (ReqGet path)))
          (SessionState (default (PList []) (data !! "history"))
                        (default (PStr "censored") (data !! "current_mode"))
                        (default (PFloat (7 # 10)) (data !! "temperature"))
                        (default (PStr "Fantasy") (data !! "tone"))
                        (user_id (session w))))
       [Notice Success "Session loaded successfully from cloud!"]).
Proof.
  intros Hdb Hok Huid path Hdata.
  unfold load_story_from_firestore. run. rewrite Hdb.
  rewrite (guard_passes fs _ Huid).
  unfold doc_get, received. rewrite Hdb. cbn [failing documents]. rewrite Hok.
  fold path. rewrite Hdata. reflexivity.
Qed.

(** Without a data base, or with an identifier that is empty, the save and
    the load do nothing but warn: they return [False], send no request and
    leave the session as it was. *)
Theorem persistence_needs_a_data_base_and_an_identifier (w : world) :
  db w = None ∨ user_id (session w) = "" →
  save_story_to_firestore w
  = (Return false,
     with_notices w
       [Notice Warning "Cannot save: Firebase not initialized or user ID not available."])
  ∧ load_story_from_firestore w
    = (Return false,
       with_notices w
         [Notice Warning "Cannot load: Firebase not initialized or user ID not available."]).
Proof.
  intros Hguard.
  assert (negb (bool_decide (is_Some (db w))) || negb (Str.nonempty (user_id (session w)))
          = true) as Hblocked.
  { destruct Hguard as [-> | ->]; [reflexivity|]. apply orb_true_r. }
  unfold save_story_to_firestore, load_story_from_firestore. run.
  now rewrite Hblocked.
Qed.

(** A save that meets a failing data base: the exception is caught, its
    text is shown as an error and [False] is returned.  The request was sent;
    the documents and the session are as they were. *)
Theorem save_failure_is_reported (w : world) (fs : firestore) (e : exn) :
  db w = Some fs →
  failing fs = Some e →
  user_id (session w) ≠ "" →
  save_story_to_firestore w
  = (Return false,
     with_notices
       (with_db w
          (Firestore (documents fs) (server_time fs) (Some e)
             (requests fs
              ++ [ReqSet (session_document (user_id (session w))) (session_data (session w))
                         true])))
       [Notice Error ("Error saving session: " +:+ exn_str e)]).
Proof.
  intros Hdb Hfail Huid.
  unfold save_story_to_firestore. run. rewrite Hdb.
  rewrite (guard_passes fs _ Huid).
  unfold doc_set. rewrite Hdb. cbn [received failing]. rewrite Hfail.
  unfold received. now rewrite Hfail.
Qed.

(** A load that finds a document without the four fields of a session (one
    another program wrote, or an empty one) does not keep the values of the
    session: the history becomes empty and the settings become the defaults
    of the script. *)
Theorem load_takes_defaults_for_missing_fields (w : world) (fs : firestore)
    (data : gmap string pyval) :
  db w = Some fs →
  failing fs = None →
  user_id (session w) ≠ "" →
  documents fs !! session_document (user_id (session w)) = Some data →
  data !! "history" = None →
  data !! "current_mode" = None →
  data !! "temperature" = None →
  data !! "tone" = None →
  ∃ w' : world,
    load_story_from_firestore w = (Return true, w')
    ∧ session w' = fresh_session (user_id (session w)).
Proof.
  intros Hdb Hok Huid Hdata Hh Hm Ht Htn.
  rewrite (load_story_found w fs data Hdb Hok Huid Hdata).
  eexists. split; [reflexivity|]. cbn. now rewrite Hh, Hm, Ht, Htn.
Qed.

(** A save followed by a load, with the same identifier and a data base that
    answers: whatever the session holds at the time of the load (a new story,
    other settings), the load puts back the history, the mode, the
    temperature and the tone that were saved.  The values of a session are
    never the sentinel of the time stamp. *)
Theorem save_then_load_restores_the_session (w : world) (fs : firestore)
    (later : session_state) :
  db w = Some fs →
  failing fs = None →
  user_id (session w) ≠ "" →
  user_id later = user_id (session w) →
  story_history (session w) ≠ PServerTimestamp →
  current_mode (session w) ≠ PServerTimestamp →
  temperature (session w) ≠ PServerTimestamp →
  tone (session w) ≠ PServerTimestamp →
  ∃ saved loaded : world,
    save_story_to_firestore w = (Return true, saved)
    ∧ load_story_from_firestore (with_session saved later) = (Return true, loaded)
    ∧ session loaded = session w.
Proof.
  intros Hdb Hok Huid Hlater Hh Hm Ht Htn.
  assert (∀ v : pyval, v ≠ PServerTimestamp → resolve (server_time fs) v = v) as Hresolve
    by (intros v Hv; now destruct v).
  set (path := session_document (user_id (session w))).
  set (doc := written_fields (server_time fs) (session_data (session w))
              ∪ default ∅ (documents fs !! path)).
  set (fs1 := Firestore (<[path := doc]> (documents fs)) (server_time fs) None
                (requests fs ++ [ReqSet path (session_data (session w)) true])).
  set (saved := with_notices (with_db w fs1)
                  [Notice Success
                     "Current session saved successfully to cloud! You can resume from here."]).
  assert (Huid' : user_id (session (with_session saved later)) ≠ "")
    by (cbn; now rewrite Hlater).
  assert (documents fs1 !! session_document (user_id (session (with_session saved later)))
          = Some doc) as Hdoc
    by (cbn; rewrite Hlater; apply lookup_insert_eq).
  exists saved. eexists. split; [exact (save_story_succeeds w fs Hdb Hok Huid)|].
  rewrite (load_story_found (with_session saved later) fs1 doc eq_refl eq_refl Huid' Hdoc).
  split; [reflexivity|]. cbn [session with_notices with_session].
  assert (doc !! "history" = Some (story_history (session w))) as ->
    by (rewrite <- (Hresolve _ Hh); apply lookup_union_Some_l; reflexivity).
  assert (doc !! "current_mode" = Some (current_mode (session w))) as ->
    by (rewrite <- (Hresolve _ Hm); apply lookup_union_Some_l; reflexivity).
  assert (doc !! "temperature" = Some (temperature (session w))) as ->
    by (rewrite <- (Hresolve _ Ht); apply lookup_union_Some_l; reflexivity).
  assert (doc !! "tone" = Some (tone (session w))) as ->
    by (rewrite <- (Hresolve _ Htn); apply lookup_union_Some_l; reflexivity).
  cbn. rewrite Hlater. now destruct (session w).
Qed.

(** The document of a session is named by its identifier, and a save writes
    that document only: whatever the outcome of the save, the document of
    every other identifier is as it was. *)
Theorem save_leaves_other_sessions_alone (w : world) (fs : firestore) (other : string) :
  db w = Some fs →
  other ≠ user_id (session w) →
  ∃ fs' : firestore,
    db (snd (save_story_to_firestore w)) = Some fs'
    ∧ documents fs' !! session_document other = documents fs !! session_document other.
Proof.
  intros Hdb Hother. unfold save_story_to_firestore. run. rewrite Hdb.
  cbn [bool_decide decide_rel negb orb].
  destruct (Str.nonempty (user_id (session w))) eqn:Huid.
  - cbn. unfold doc_set, received. rewrite Hdb. cbn [failing documents].
    destruct (failing fs) as [e|]; cbn; eexists; (split; [reflexivity|]); [reflexivity|].
    cbn. apply lookup_insert_ne. unfold session_document. congruence.
  - cbn. rewrite Hdb. now exists fs.
Qed.

(** ** The selectors and the start of the script *)

(** The position [index_of] finds holds the value it looked for. *)
Lemma index_of_lookup (v : pyval) (options : list string) (i : nat) :
  index_of v options = Some i → ∃ o : string, options !! i = Some o ∧ v = PStr o.
Proof.
  revert i. induction options as [|o options IH]; intros i; [discriminate|].
  cbn [index_of]. destruct (eq_str v o) eqn:Heq.
  - intros [= <-]. exists o. split; [reflexivity|].
    destruct v; try discriminate. cbn in Heq. apply String.eqb_eq in Heq. now subst.
  - destruct (index_of v options) as [j|]; [|discriminate].
    intros [= <-]. exact (IH j eq_refl).
Qed.

(** With a mode and a tone that are among the options, each selector is
    given the index of the value the session holds: the widgets show the
    settings of the session, those of an import or a load included. *)
Theorem selectors_show_the_session_settings (str_object : pyval → string)
    (s : session_state) (mode tn : string) :
  current_mode s = PStr mode →
  tone s = PStr tn →
  mode ∈ MODE_OPTIONS →
  tn ∈ TONE_OPTIONS →
  MODE_OPTIONS !! mode_selector_index s = Some mode
  ∧ ∃ i : nat, tone_selector_index str_object s = Return i ∧ TONE_OPTIONS !! i = Some tn.
Proof.
  intros Hmode Htone Hm Ht. split.
  - unfold mode_selector_index. rewrite Hmode. unfold MODE_OPTIONS in Hm.
    repeat (apply elem_of_cons in Hm as [-> | Hm]; [reflexivity|]).
    now apply elem_of_nil in Hm.
  - unfold tone_selector_index, py_index. rewrite Htone. unfold TONE_OPTIONS in Ht.
    repeat (apply elem_of_cons in Ht as [-> | Ht]; [eexists; split; reflexivity|]).
    now apply elem_of_nil in Ht.
Qed.

(** The first initialisation of Firebase raises nothing, whatever the key,
    [json.loads] and the SDK do: it returns a client or [None], and shows
    what happened.  Without a key (absent or empty) it returns [None] with
    the error that the key was not found.  It returns a client only when the
    key is not empty, parses as JSON, is accepted by the SDK, and the client
    could be made. *)
Theorem first_initialization_raises_nothing (json_loads : string → exn + pyval)
    (initialize_app : pyval → exn + unit) (firestore_client : exn + firestore)
    (key : option string) (w : world) :
  ∃ (client : option firestore) (shown : list notice),
    initialize_firebase json_loads initialize_app firestore_client false key w
    = (Return client, with_notices w shown)
    ∧ (from_option Str.nonempty false key = false →
       client = None
       ∧ shown = [Notice Error "Firebase Service Account Key not found. Please add it to Streamlit Secrets or your .env file."])
    ∧ (∀ c : firestore,
         client = Some c →
         ∃ (k : string) (cred_dict : pyval),
           key = Some k ∧ k ≠ "" ∧ json_loads k = inr cred_dict
           ∧ initialize_app cred_dict = inr tt ∧ firestore_client = inr c).
Proof.
  unfold initialize_firebase. cbn [negb].
  destruct key as [k|]; [destruct (Str.nonempty k) eqn:Hk|].
  - assert (k ≠ "") as Hne by (intros ->; discriminate).
    unfold try_except, mbind, M_bind, lift, of_sum.
    destruct (json_loads k) as [e | cred_dict] eqn:Hjson.
    { eexists None, [_]. split; [reflexivity|]. split; [cbn; rewrite Hk; discriminate | discriminate]. }
    destruct (initialize_app cred_dict) as [e | []] eqn:Hinit.
    { eexists None, [_]. split; [reflexivity|]. split; [cbn; rewrite Hk; discriminate | discriminate]. }
    destruct firestore_client as [e | c] eqn:Hclient.
    + exists None, [Notice Success "Firebase Admin SDK initialized.";
                    Notice Error ("Error initializing Firebase Admin SDK: " +:+ exn_str e)].
      split; [|split; [cbn; rewrite Hk; discriminate | discriminate]].
      unfold show, with_notices, mret, M_ret. cbn. now rewrite <- app_assoc.
    + eexists (Some c), [_]. split; [reflexivity|]. split; [cbn; rewrite Hk; discriminate|].
      intros c' [= <-]. now exists k, cred_dict.
  - eexists None, [_]. split; [reflexivity|]. split; [now split | discriminate].
  - eexists None, [_]. split; [reflexivity|]. split; [now split | discriminate].
Qed.

(** ** The further properties on concrete runs *)

Import Cases.

(** A response without text and with a block reason. *)
Lemma blocked_reply :
  generate_gemini_response plain_str both_models blocked_service
    "prompt" (PFloat (7 # 10)) (PStr "censored") (world_of session0)
  = (Return "AI response was blocked by safety settings. Reason: SAFETY",
     with_call (world_of session0)
       (GeminiCall (GenerativeModel "gemini-1.5-flash-latest" _DEFAULT_SAFETY_SETTINGS)
                   "prompt" [("temperature", PFloat (7 # 10))])).
Proof.
  exact (proj1 (proj2 (generate_classifies_the_response plain_str both_models blocked_service
                         "prompt" (PFloat (7 # 10)) (PStr "censored") (world_of session0)
                         (GenerativeModel "gemini-1.5-flash-latest" _DEFAULT_SAFETY_SETTINGS)
                         (Response (Attr "") (Attr (PromptFeedback true (inr "SAFETY"))))
                         eq_refl eq_refl))
           "SAFETY" (or_intror eq_refl) eq_refl).
Defined.

(** A failure of status 500. *)
Lemma server_error_reply :
  generate_gemini_response plain_str both_models (failing_service overloaded)
    "prompt" (PFloat (7 # 10)) (PStr "uncensored") (world_of session0)
  = (Return "AI (Gemini uncensored) API Error: Internal server error. Please try again later.",
     with_call (world_of session0)
       (GeminiCall (GenerativeModel "gemini-1.5-flash-latest" _UNCENSORED_SAFETY_SETTINGS)
                   "prompt" [("temperature", PFloat (7 # 10))])).
Proof.
  exact (proj1 (proj2 (generate_classifies_the_failure plain_str both_models
                         (failing_service overloaded)
                         "prompt" (PFloat (7 # 10)) (PStr "uncensored") (world_of session0)
                         (GenerativeModel "gemini-1.5-flash-latest" _UNCENSORED_SAFETY_SETTINGS)
                         overloaded eq_refl eq_refl))
           eq_refl eq_refl eq_refl).
Defined.


(** What that reply is. *)
Example unreadable_reply_text :
  fst (generate_gemini_response plain_str both_models unreadable_service
         "prompt" (PFloat (7 # 10)) (PStr "censored") (world_of session0))
  = Return ("AI (Gemini censored) encountered an error: " +:+ exn_str unreadable).
Proof. reflexivity. Qed.

(** The prompt of the welcome followed by a turn of the user. *)
Lemma prompt_after_the_welcome :
  ∃ before : string,
    build_full_context plain_str
      (world_of (SessionState (log_value ([welcome] ++ [MkTurn "user" "I draw my sword."]))
                              (PStr "censored") (PFloat (7 # 10)) (PStr "Fantasy")
                              (user_id session0)))
    = (Return (before +:+ "USER: " +:+ "I draw my sword." +:+ Str.LF +:+ "AI:"),
       world_of (SessionState (log_value ([welcome] ++ [MkTurn "user" "I draw my sword."]))
                              (PStr "censored") (PFloat (7 # 10)) (PStr "Fantasy")
                              (user_id session0))).
Proof.
  apply (prompt_ends_with_the_new_turn plain_str
           (world_of (SessionState (log_value ([welcome] ++ [MkTurn "user" "I draw my sword."]))
                                   (PStr "censored") (PFloat (7 # 10)) (PStr "Fantasy")
                                   (user_id session0)))
           [welcome] "I draw my sword.").
  reflexivity.
Defined.

(** The twelve turns and their last ten give the same prompt. *)
Lemma prompt_of_twelve_is_prompt_of_ten :
  fst (build_full_context plain_str (world_of session12))
  = fst (build_full_context plain_str
           (world_of (SessionState (log_value ten_turns) (PStr "uncensored") (PFloat (1 # 2))
                                   (PStr "Horror") (user_id session1)))).
Proof.
  apply (prompt_ignores_older_turns plain_str (world_of session12)
           (world_of (SessionState (log_value ten_turns) (PStr "uncensored") (PFloat (1 # 2))
                                   (PStr "Horror") (user_id session1)))
           [welcome; MkTurn "user" "one"] ten_turns);
    reflexivity.
Defined.

(** The end of a run on a session that has its welcome. *)
Lemma run_of_session0_ends_with_a_history :
  world_of session0 = world_of session0
  ∧ truthy (story_history (session (world_of session0))) = true.
Proof.
  exact (run_ends_with_a_history (world_of session0) (world_of session0) eq_refl).
Defined.

(** The export of a session without history, and of a session whose
    temperature is a time stamp, which JSON cannot write. *)
Lemma export_of_odd_sessions :
  export_column RefJson.dumps (world_of anonymous)
  = (Return (DisabledButton "Export Story (JSON)"), world_of anonymous)
  ∧ export_column RefJson.dumps
      (world_of (SessionState (log_value [welcome]) (PStr "censored") (PTimestamp 1700000000)
                              (PStr "Fantasy") (user_id session0)))
    = (Raise (Exn TypeError "Object is not JSON serializable"),
       world_of (SessionState (log_value [welcome]) (PStr "censored") (PTimestamp 1700000000)
                              (PStr "Fantasy") (user_id session0))).
Proof.
  split.
  - exact (proj1 (export_without_history_or_serialization RefJson.dumps (world_of anonymous))
             eq_refl).
  - apply (proj2 (export_without_history_or_serialization RefJson.dumps
                    (world_of (SessionState (log_value [welcome]) (PStr "censored")
                                            (PTimestamp 1700000000) (PStr "Fantasy")
                                            (user_id session0))))
             (Exn TypeError "Object is not JSON serializable"));
      reflexivity.
Defined.

(** A document whose settings are [null]. *)
Lemma import_of_null_settings :
  import_form RefJson.loads true
    (file_of "{'history': [{'sender': 'ai', 'text': 'Hi'}], 'settings': null}")
    (world_of session1)
  = (Return tt,
     with_notices
       (with_session (world_of session1)
          (SessionState (log_value [MkTurn "ai" "Hi"]) (PStr "uncensored") (PFloat (1 # 2))
                        (PStr "Horror") (user_id session1)))
       [Notice Error "Error importing story: 'NoneType' object has no attribute 'get'"]).
Proof.
  apply (import_with_settings_that_are_no_object RefJson.loads (world_of session1) "story.json"
           (RefJson.typed "{'history': [{'sender': 'ai', 'text': 'Hi'}], 'settings': null}")
           [("history", log_value [MkTurn "ai" "Hi"]); ("settings", PNone)]
           (log_value [MkTurn "ai" "Hi"]) PNone);
    [vm_compute; reflexivity | reflexivity | reflexivity | discriminate].
Defined.

(** A file in Latin-1. *)
Lemma import_of_a_latin1_file :
  import_form RefJson.loads true latin1_file (world_of session0)
  = (Return tt,
     with_notices (world_of session0)
       [Notice Error "Error importing story: 'utf-8' codec can't decode byte 0xe9 in position 3: invalid continuation byte"]).
Proof.
  apply (proj2 (proj2 (import_without_a_readable_file RefJson.loads (world_of session0)))
           "story.json"
           (Exn UnicodeDecodeError
              "'utf-8' codec can't decode byte 0xe9 in position 3: invalid continuation byte")).
  reflexivity.
Defined.

(** A save and a load without a data base. *)
Lemma persistence_without_a_data_base :
  save_story_to_firestore (world_of session0)
  = (Return false,
     with_notices (world_of session0)
       [Notice Warning "Cannot save: Firebase not initialized or user ID not available."])
  ∧ load_story_from_firestore (world_of session0)
    = (Return false,
       with_notices (world_of session0)
         [Notice Warning "Cannot load: Firebase not initialized or user ID not available."]).
Proof.
  exact (persistence_needs_a_data_base_and_an_identifier (world_of session0)
           (or_introl eq_refl)).
Defined.

(** A save into a data base that is down. *)
Lemma save_into_a_broken_store :
  save_story_to_firestore (world_with_store session0 broken_store)
  = (Return false,
     with_notices
       (with_db (world_with_store session0 broken_store)
          (Firestore ∅ 1700000000
             (Some (Exn ServiceError "503 The service is currently unavailable."))
             [ReqSet (session_document (user_id session0)) (session_data session0) true]))
       [Notice Error "Error saving session: 503 The service is currently unavailable."]).
Proof.
  apply (save_failure_is_reported (world_with_store session0 broken_store) broken_store
           (Exn ServiceError "503 The service is currently unavailable."));
    first [reflexivity | discriminate].
Defined.

(** A load that finds an empty document, from a session with twelve turns
    and the tone Horror. *)
Lemma load_of_an_empty_document :
  ∃ w' : world,
    load_story_from_firestore (world_with_store session12 store_with_empty_document)
    = (Return true, w')
    ∧ session w' = fresh_session (user_id session0).
Proof.
  apply (load_takes_defaults_for_missing_fields
           (world_with_store session12 store_with_empty_document)
           store_with_empty_document ∅ eq_refl eq_refl ltac:(discriminate));
    vm_compute; reflexivity.
Defined.

(** A save, a new story with other settings, and a load. *)
Lemma save_new_story_and_load :
  ∃ saved loaded : world,
    save_story_to_firestore (world_with_store session0 empty_store) = (Return true, saved)
    ∧ load_story_from_firestore
        (with_session saved
           (SessionState (PList []) (PStr "uncensored") (PFloat (1 # 2)) (PStr "Horror")
                         (user_id session0)))
      = (Return true, loaded)
    ∧ session loaded = session0.
Proof.
  apply (save_then_load_restores_the_session (world_with_store session0 empty_store)
           empty_store
           (SessionState (PList []) (PStr "uncensored") (PFloat (1 # 2)) (PStr "Horror")
                         (user_id session0))
           eq_refl eq_refl);
    first [discriminate | reflexivity].
Defined.

(** A save of [session0] and the document of [session1]. *)
Lemma save_of_session0_and_session1 :
  ∃ fs' : firestore,
    db (snd (save_story_to_firestore (world_with_store session0 store_with_bookmark)))
    = Some fs'
    ∧ documents fs' !! session_document (user_id session1)
      = documents store_with_bookmark !! session_document (user_id session1).
Proof.
  apply (save_leaves_other_sessions_alone (world_with_store session0 store_with_bookmark)
           store_with_bookmark (user_id session1) eq_refl).
  discriminate.
Defined.

(** The requests of a save into an empty data base. *)
Lemma requests_of_a_save :
  ∃ (fs' : firestore) (sent : list db_request),
    db (snd (save_story_to_firestore (world_with_store session0 empty_store))) = Some fs'
    ∧ requests fs' = requests empty_store ++ sent
    ∧ ∀ path : list string, ReqGet path ∉ sent.
Proof.
  exact (save_sends_no_get (world_with_store session0 empty_store) empty_store eq_refl).
Defined.

(** The selectors for [session1]: uncensored and Horror. *)
Lemma selectors_of_session1 :
  MODE_OPTIONS !! mode_selector_index session1 = Some "uncensored"
  ∧ ∃ i : nat, tone_selector_index plain_str session1 = Return i
               ∧ TONE_OPTIONS !! i = Some "Horror".
Proof.
  apply (selectors_show_the_session_settings plain_str session1 "uncensored" "Horror"
           eq_refl eq_refl); repeat constructor.
Defined.
